(** * AINative Go SDK: the request dispatcher, client construction,
      service pre-flight validation and token helpers

    A shallow embedding of [ainative/client.go], [ainative/auth.go],
    [ainative/embeddings.go] and of the package files errors.go and
    zerodb.go (the two Go sources that follow the shell script in
    [verify-security-fix.sh]).  Go pointers that the
    code writes through (the caller's [*Config], the caller's request
    structs, the result sink handed to [makeRequest]) are modelled by
    explicit state passing: a function returns the state of the pointed-to
    object after the call next to its Go results.  Third-party packages
    (golang.org/x/time/rate, go-resty, golang-jwt, net/url, strings, time)
    are interfaces whose operations are class fields; a reference
    implementation of each is given further down so that every definition
    can be evaluated. *)

From Stdlib Require Import ZArith Lia Ascii String.
From stdpp Require Import base strings gmap list pretty.

Open Scope Z_scope.

(** ** Primitive Go types *)

(** [time.Duration]: a count of nanoseconds. *)
Definition Duration := Z.

(** Two's-complement wrap-around of [int64] arithmetic. *)
Definition wrap64 (z : Z) : Z := (z + 2 ^ 63) mod 2 ^ 64 - 2 ^ 63.

Definition Millisecond : Duration := 1000000.
Definition Second : Duration := 1000 * Millisecond.

(** [time.Time]: nanoseconds elapsed since Go's zero instant, so that the
    zero value of the type is [0]. *)
Definition Time := Z.

Definition Time_Add (t : Time) (d : Duration) : Time := t + d.
Definition Time_Before (t u : Time) : bool := t <? u.

(** [float64], carried as its IEEE-754 bit pattern; the SDK only passes
    vectors through. *)
Definition float64 := Z.

(** A [map[string]interface{}] of JSON values, each value in its encoded
    form. *)
Abbreviation JSONObject := (gmap string string).

(** ** errors.go *)

Module APIError.
Record t := mk {
  StatusCode : Z;
  Message : string;
  Code : string;
  Details : JSONObject;
  RequestID : string;
  Timestamp : string
}.

(** The zero value, as in [var apiError APIError]. *)
Definition zero : t := mk 0 "" "" ∅ "" "".

(** The assignment [e.StatusCode = status]. *)
Definition set_StatusCode (status : Z) (e : t) : t :=
  mk status (Message e) (Code e) (Details e) (RequestID e) (Timestamp e).
End APIError.

(** [VectorItem] of zerodb.go, declared here because validation errors
    carry slices of it in their [Value]. *)
Module VectorItem.
Record t := mk {
  ID : string;
  Vector : list float64;
  Metadata : JSONObject
}.
End VectorItem.

(** Dynamic values stored in [ValidationError.Value] (an [interface{}]):
    the kinds of value the service methods put there. *)
Inductive Value :=
| VNil
| VString (s : string)
| VInt (n : Z)
| VFloats (v : list float64)
| VStrings (l : list string)
| VVectorItems (l : list VectorItem.t).

Module ValidationError.
Record t := mk { Field : string; Message : string; Value_ : Value }.
End ValidationError.

Module ConfigError.
Record t := mk { Field : string; Message : string }.
End ConfigError.

(** Go [error] values.  [errorString] is what [errors.New] and a
    [fmt.Errorf] without [%w] build; [wrapError prefix cause] is
    [fmt.Errorf(prefix + "%w", cause)]; the other constructors are the
    four exported error structs ([NetworkError] has fields [Message] and
    [Cause], the latter possibly nil). *)
#[warnings="-register-all"]
Inductive error :=
| errorString (s : string)
| wrapError (prefix : string) (cause : error)
| EAPIError (e : APIError.t)
| EValidationError (e : ValidationError.t)
| ENetworkError (Message : string) (Cause : option error)
| EConfigError (e : ConfigError.t).

(** The [Error() string] methods. *)
Fixpoint Error (e : error) : string :=
  match e with
  | errorString s => s
  | wrapError prefix cause => prefix +:+ Error cause
  | EAPIError a =>
      if decide (APIError.Code a = "")
      then "AINative API error [" +:+ pretty (APIError.StatusCode a) +:+ "]: "
             +:+ APIError.Message a
      else "AINative API error [" +:+ pretty (APIError.StatusCode a) +:+ ":"
             +:+ APIError.Code a +:+ "]: " +:+ APIError.Message a
  | EValidationError v =>
      "validation error for field '" +:+ ValidationError.Field v +:+ "': "
        +:+ ValidationError.Message v
  | ENetworkError m (Some c) =>
      "network error: " +:+ m +:+ " (caused by: " +:+ Error c +:+ ")"
  | ENetworkError m None => "network error: " +:+ m
  | EConfigError c =>
      "configuration error for field '" +:+ ConfigError.Field c +:+ "': "
        +:+ ConfigError.Message c
  end.

(** [errors.Unwrap]: the wrapped error of a [%w] error or the cause of a
    [NetworkError]. *)
Definition Unwrap (e : error) : option error :=
  match e with
  | wrapError _ cause => Some cause
  | ENetworkError _ cause => cause
  | _ => None
  end.

Definition StatusUnauthorized : Z := 401.
Definition StatusForbidden : Z := 403.
Definition StatusTooManyRequests : Z := 429.

Definition IsAuthenticationError (e : APIError.t) : bool :=
  (APIError.StatusCode e =? StatusUnauthorized)
  || (APIError.StatusCode e =? StatusForbidden).

Definition IsRateLimitError (e : APIError.t) : bool :=
  APIError.StatusCode e =? StatusTooManyRequests.

Definition IsServerError (e : APIError.t) : bool :=
  (500 <=? APIError.StatusCode e) && (APIError.StatusCode e <? 600).

Definition IsClientError (e : APIError.t) : bool :=
  (400 <=? APIError.StatusCode e) && (APIError.StatusCode e <? 500).

Definition IsRetryable (e : APIError.t) : bool :=
  IsServerError e || IsRateLimitError e.

Definition NewAPIError (statusCode : Z) (message code : string) : APIError.t :=
  APIError.mk statusCode message code ∅ "" "".

Definition NewValidationError (field message : string) (value : Value) : error :=
  EValidationError (ValidationError.mk field message value).

Definition NewNetworkError (message : string) (cause : option error) : error :=
  ENetworkError message cause.

Definition NewConfigError (field message : string) : error :=
  EConfigError (ConfigError.mk field message).

(** The dynamic type tests a caller performs with a type assertion. *)
Definition isAPIError (e : error) : bool :=
  match e with EAPIError _ => true | _ => false end.
Definition isValidationError (e : error) : bool :=
  match e with EValidationError _ => true | _ => false end.
Definition isNetworkError (e : error) : bool :=
  match e with ENetworkError _ _ => true | _ => false end.
Definition isConfigError (e : error) : bool :=
  match e with EConfigError _ => true | _ => false end.

(** ** context.Context

    Only cancellation is observed by the SDK: [ctx_Err] is [ctx.Err()],
    nil while the context is live. *)
Record Context := { ctx_Err : option error }.

Definition Background : Context := {| ctx_Err := None |}.
Definition Canceled : Context :=
  {| ctx_Err := Some (errorString "context canceled") |}.

(** ** Collaborators outside the repository

    [Limiter], [rate_NewLimiter] and [Limiter_Wait] stand for
    [rate.Limiter], [rate.NewLimiter] and the method [Wait]: [Wait] returns
    the limiter's state after the call and the error it reports (nil when
    a token was granted).  [strings_ToUpper] is [strings.ToUpper];
    [url_Parse] gives the error of [url.Parse] (nil when the URL parses);
    [time_Now] is the instant [time.Now()] reads. *)
Class Platform := {
  Limiter : Type;
  rate_NewLimiter : Z -> Z -> Limiter;
  Limiter_Wait : Context -> Limiter -> Limiter * option error;
  strings_ToUpper : string -> string;
  url_Parse : string -> option error;
  time_Now : Time
}.

(** ** HTTP layer (go-resty) *)

Inductive Verb := GET | POST | PUT | DELETE | PATCH.

Record Response := {
  StatusCode : Z;
  Header : gmap string string
}.

(** [http.Header.Get]: the value stored under the key, or the empty
    string. *)
Definition Header_Get (h : gmap string string) (key : string) : string :=
  default "" (h !! key).

(** ** Request and response structs (zerodb.go, auth.go, client.go,
       embeddings.go) *)

Module VectorSearchRequest.
Record t := mk {
  Vector : list float64;
  TopK : Z;
  Namespace : string;
  Filter : JSONObject;
  IncludeMetadata : bool;
  IncludeValues : bool
}.

(** The assignment [req.TopK = k]. *)
Definition set_TopK (k : Z) (r : t) : t :=
  mk (Vector r) k (Namespace r) (Filter r) (IncludeMetadata r) (IncludeValues r).
End VectorSearchRequest.

Module VectorSearchMatch.
Record t := mk {
  ID : string;
  Score : float64;
  Vector : list float64;
  Metadata : JSONObject
}.
End VectorSearchMatch.

Module VectorSearchResponse.
Record t := mk {
  Matches : list VectorSearchMatch.t;
  Namespace : string
}.
Definition zero : t := mk [] "".
End VectorSearchResponse.

Module UpsertVectorsRequest.
Record t := mk {
  Vectors : list VectorItem.t;
  Namespace : string
}.
End UpsertVectorsRequest.

Module UpsertVectorsResponse.
Record t := mk {
  UpsertedCount : Z;
  Namespace : string
}.
Definition zero : t := mk 0 "".
End UpsertVectorsResponse.

(** [MemoryPriority] is a string type. *)
Definition MemoryPriority := string.
Definition MemoryPriorityLow : MemoryPriority := "low".
Definition MemoryPriorityMedium : MemoryPriority := "medium".
Definition MemoryPriorityHigh : MemoryPriority := "high".
Definition MemoryPriorityCritical : MemoryPriority := "critical".

Module MemoryItem.
Record t := mk {
  ID : string;
  Content : string;
  Title : string;
  Tags : list string;
  Priority : MemoryPriority;
  Metadata : JSONObject;
  CreatedAt : Time;
  UpdatedAt : Time
}.
Definition zero : t := mk "" "" "" [] "" ∅ 0 0.
End MemoryItem.

Module CreateMemoryRequest.
Record t := mk {
  Content : string;
  Title : string;
  Tags : list string;
  Priority : MemoryPriority;
  Metadata : JSONObject
}.

(** The assignment [req.Priority = p]. *)
Definition set_Priority (p : MemoryPriority) (r : t) : t :=
  mk (Content r) (Title r) (Tags r) p (Metadata r).
End CreateMemoryRequest.

Module SearchMemoryRequest.
Record t := mk {
  Query : string;
  Limit : Z;
  Tags : list string;
  Priority : MemoryPriority;
  Semantic : bool
}.

(** The assignment [req.Limit = n]. *)
Definition set_Limit (n : Z) (r : t) : t :=
  mk (Query r) n (Tags r) (Priority r) (Semantic r).
End SearchMemoryRequest.

Module SearchMemoryResponse.
Record t := mk {
  Results : list MemoryItem.t;
  Total : Z
}.
Definition zero : t := mk [] 0.
End SearchMemoryResponse.

(** [ProjectStatus] is a string type. *)
Definition ProjectStatus := string.

Module ProjectOwner.
Record t := mk { UserID : string; Email : string; Organization : string }.
End ProjectOwner.

Module ProjectStats.
Record t := mk {
  VectorCount : Z;
  MemoryCount : Z;
  StorageSize : Z;
  LastAccess : option Time
}.
End ProjectStats.

Module Project.
Record t := mk {
  ID : string;
  Name : string;
  Description : string;
  Status : ProjectStatus;
  Metadata : JSONObject;
  CreatedAt : Time;
  UpdatedAt : Time;
  Owner : option ProjectOwner.t;
  Stats : option ProjectStats.t
}.
Definition zero : t := mk "" "" "" "" ∅ 0 0 None None.
End Project.

Module CreateProjectRequest.
Record t := mk {
  Name : string;
  Description : string;
  Metadata : JSONObject
}.
End CreateProjectRequest.

Module HealthResponse.
Record t := mk {
  Status : string;
  Version : string;
  Timestamp : Time;
  Services : gmap string string
}.
Definition zero : t := mk "" "" 0 ∅.
End HealthResponse.

Module LoginRequest.
Record t := mk { Username : string; Password : string }.
End LoginRequest.

Module TokenResponse.
Record t := mk {
  AccessToken : string;
  TokenType : string;
  ExpiresIn : Z;
  RefreshToken : string;
  Scope : string;
  IssuedAt : Time;
  ExpiresAt : Time
}.
Definition zero : t := mk "" "" 0 "" "" 0 0.

(** The assignment [result.ExpiresAt = t]. *)
Definition set_ExpiresAt (e : Time) (r : t) : t :=
  mk (AccessToken r) (TokenType r) (ExpiresIn r) (RefreshToken r) (Scope r)
     (IssuedAt r) e.
End TokenResponse.

Module GenerateRequest.
Record t := mk {
  Texts : list string;
  Model : string;
  Normalize : bool
}.
End GenerateRequest.

Module GenerateResponse.
Record t := mk {
  Embeddings : list (list float64);
  Model : string;
  Dimensions : Z;
  Count : Z;
  ProcessingTimeMs : float64;
  CostUSD : float64
}.
Definition zero : t := mk [] "" 0 0 0 0.
End GenerateResponse.

(** The [body interface{}] argument of [makeRequest]: the request structs
    the modelled service methods pass. *)
Inductive Body :=
| BodyCreateProject (r : CreateProjectRequest.t)
| BodyVectorSearch (r : VectorSearchRequest.t)
| BodyUpsertVectors (r : UpsertVectorsRequest.t)
| BodyCreateMemory (r : CreateMemoryRequest.t)
| BodySearchMemory (r : SearchMemoryRequest.t)
| BodyLogin (r : LoginRequest.t)
| BodyGenerate (r : GenerateRequest.t).

(** One request handed to the HTTP layer. *)
Record Request := {
  rq_Verb : Verb;
  rq_Path : string;
  rq_Body : option Body
}.

(** What one send through resty leaves behind: the pair [(resp, err)] it
    returns, the value it stored into the result sink (when it stored
    one) and the state of the [apiError] variable registered with
    [SetError].  [ex_resp] is meaningful when [ex_err] is nil. *)
Record Exchange (R : Type) := {
  ex_resp : Response;
  ex_err : option error;
  ex_stored : option R;
  ex_apiError : APIError.t
}.
Arguments ex_resp {R}.
Arguments ex_err {R}.
Arguments ex_stored {R}.
Arguments ex_apiError {R}.

(** The remote end together with resty's send and decode of one attempt,
    for calls whose result sink has type [R]: given the requests already
    sent by this client, the request, the current content of the result
    sink (nil when the caller passed none) and of the error sink, it
    yields the exchange. *)
Class Transport (R : Type) :=
  roundTrip : list Request -> Request -> option R -> APIError.t -> Exchange R.

(** The result sink after an exchange: untouched unless the exchange
    stored a value, and absent when the caller passed nil. *)
Definition storeResult {R} (sink stored : option R) : option R :=
  match sink with
  | Some r0 => Some (default r0 stored)
  | None => None
  end.

(** ** client.go: configuration and construction *)

Definition DefaultBaseURL : string := "https://api.ainative.studio".
Definition DefaultTimeout : Duration := 30 * Second.
Definition DefaultMaxRetries : Z := 3.
Definition DefaultRateLimit : Z := 100.
Definition UserAgent : string := "AINative-Go-SDK/1.0.0".

(** An [*http.Client]: one the caller owns (known by its address) or the
    pooled one [NewClient] allocates. *)
Inductive HTTPClient :=
| callerHTTPClient (addr : positive)
| pooledHTTPClient (Timeout : Duration) (MaxIdleConns MaxIdleConnsPerHost : Z)
    (IdleConnTimeout : Duration).

(** A [trace.Tracer]: one the caller supplies or the global
    [otel.Tracer(name)]. *)
Inductive Tracer :=
| callerTracer (addr : positive)
| otel_Tracer (name : string).

Module RetryConfig.
Record t := mk {
  MaxRetries : Z;
  InitialDelay : Duration;
  MaxDelay : Duration;
  BackoffMultiplier : float64;
  Jitter : bool
}.
End RetryConfig.

Module Config.
Record t := mk {
  APIKey : string;
  APISecret : string;
  BaseURL : string;
  OrganizationID : string;
  ProjectID : string;
  HTTPClient_ : option HTTPClient;
  Timeout : Duration;
  RetryConfig_ : option RetryConfig.t;
  RateLimit : Z;
  Tracer_ : option Tracer;
  Debug : bool
}.

(** The assignments [config.BaseURL = u], [config.Timeout = d] and
    [config.RateLimit = n]. *)
Definition set_BaseURL (u : string) (c : t) : t :=
  mk (APIKey c) (APISecret c) u (OrganizationID c) (ProjectID c)
     (HTTPClient_ c) (Timeout c) (RetryConfig_ c) (RateLimit c) (Tracer_ c)
     (Debug c).
Definition set_Timeout (d : Duration) (c : t) : t :=
  mk (APIKey c) (APISecret c) (BaseURL c) (OrganizationID c) (ProjectID c)
     (HTTPClient_ c) d (RetryConfig_ c) (RateLimit c) (Tracer_ c) (Debug c).
Definition set_RateLimit (n : Z) (c : t) : t :=
  mk (APIKey c) (APISecret c) (BaseURL c) (OrganizationID c) (ProjectID c)
     (HTTPClient_ c) (Timeout c) (RetryConfig_ c) n (Tracer_ c) (Debug c).
End Config.

(** The settings of the [*resty.Client] that [NewClient] configures. *)
Module Resty.
Record t := mk {
  base : HTTPClient;
  BaseURL : string;
  Timeout : Duration;
  Headers : gmap string string;
  RetryCount : Z;
  RetryWaitTime : Duration;
  RetryMaxWaitTime : Duration;
  Debug : bool
}.
End Resty.

(** 2.0 as a [float64]. *)
Definition float64_two : float64 := 4611686018427387904.

(** The retry configuration [NewClient] uses when the caller gave none. *)
Definition defaultRetryConfig : RetryConfig.t :=
  RetryConfig.mk DefaultMaxRetries (100 * Millisecond) (10 * Second)
                 float64_two true.

(** The closure passed to [AddRetryCondition] in [NewClient]. *)
Definition retryCondition (r : Response) (err : option error) : bool :=
  match err with
  | Some _ => true
  | None => (500 <=? StatusCode r) || (StatusCode r =? 429)
  end.

Section Dispatcher.
Context `{P : Platform}.

(** The [Client] struct.  [wire] is not a Go field: it records, in
    order, every request this client handed to the network, so that
    "no request was made" can be stated.  The service back-pointers
    ([ZeroDB], [Auth], ...) carry no state of their own and are left
    out. *)
Record Client := {
  httpClient : Resty.t;
  config : Config.t;
  rateLimiter : Limiter;
  tracer : Tracer;
  wire : list Request
}.

Definition set_rateLimiter (l : Limiter) (c : Client) : Client :=
  {| httpClient := httpClient c; config := config c; rateLimiter := l;
     tracer := tracer c; wire := wire c |}.

Definition set_wire (w : list Request) (c : Client) : Client :=
  {| httpClient := httpClient c; config := config c;
     rateLimiter := rateLimiter c; tracer := tracer c; wire := w |}.

(** [NewClient].  The first component is the caller's [Config] object
    after the call (nil when the caller passed nil): [NewClient] writes
    its defaults through the pointer it was given. *)
Definition NewClient (config : option Config.t)
  : option Config.t * option Client * option error :=
  match config with
  | None => (None, None, Some (errorString "config cannot be nil"))
  | Some cfg =>
    if decide (Config.APIKey cfg = "")
    then (Some cfg, None, Some (errorString "API key is required"))
    else
      (* Set defaults *)
      let cfg := if decide (Config.BaseURL cfg = "")
                 then Config.set_BaseURL DefaultBaseURL cfg else cfg in
      let cfg := if decide (Config.Timeout cfg = 0)
                 then Config.set_Timeout DefaultTimeout cfg else cfg in
      let cfg := if decide (Config.RateLimit cfg = 0)
                 then Config.set_RateLimit DefaultRateLimit cfg else cfg in
      (* Validate base URL *)
      match url_Parse (Config.BaseURL cfg) with
      | Some err => (Some cfg, None, Some (wrapError "invalid base URL: " err))
      | None =>
        let baseHTTPClient :=
          match Config.HTTPClient_ cfg with
          | Some h => h
          | None => pooledHTTPClient (Config.Timeout cfg) 100 10 (90 * Second)
          end in
        let headers : gmap string string :=
          <["Accept" := "application/json"]>
            (<["Content-Type" := "application/json"]>
               (<["User-Agent" := UserAgent]> ∅)) in
        let headers :=
          if decide (Config.APISecret cfg ≠ "")
          then <["Authorization" :=
                   "Bearer " +:+ Config.APIKey cfg +:+ ":"
                     +:+ Config.APISecret cfg]> headers
          else <["Authorization" := "Bearer " +:+ Config.APIKey cfg]> headers in
        let headers :=
          if decide (Config.OrganizationID cfg ≠ "")
          then <["X-Organization-ID" := Config.OrganizationID cfg]> headers
          else headers in
        let retryConfig :=
          match Config.RetryConfig_ cfg with
          | Some rc => rc
          | None => defaultRetryConfig
          end in
        let httpClient :=
          Resty.mk baseHTTPClient (Config.BaseURL cfg) (Config.Timeout cfg)
                   headers
                   (RetryConfig.MaxRetries retryConfig)
                   (RetryConfig.InitialDelay retryConfig)
                   (RetryConfig.MaxDelay retryConfig)
                   (Config.Debug cfg) in
        let rateLimiter :=
          rate_NewLimiter (Config.RateLimit cfg) (Config.RateLimit cfg) in
        let tracer :=
          match Config.Tracer_ cfg with
          | Some t => t
          | None => otel_Tracer "ainative-go-sdk"
          end in
        (Some cfg,
         Some {| httpClient := httpClient; config := cfg;
                 rateLimiter := rateLimiter; tracer := tracer; wire := [] |},
         None)
      end
  end.

(** The [switch strings.ToUpper(method)] of [makeRequest]: the verb
    whose resty method is called, or nothing in the [default] case. *)
Definition verbOf (upper : string) : option Verb :=
  if decide (upper = "GET") then Some GET
  else if decide (upper = "POST") then Some POST
  else if decide (upper = "PUT") then Some PUT
  else if decide (upper = "DELETE") then Some DELETE
  else if decide (upper = "PATCH") then Some PATCH
  else None.

(** The verbs the switch has a case for. *)
Definition supportedVerbs : list string :=
  ["GET"; "POST"; "PUT"; "PATCH"; "DELETE"].

Section WithSink.
Context {R : Type} `{T : !Transport R}.

(** What [req.Get(path)] and its siblings do inside resty: send, and
    while the retry condition holds and retries remain, send again.
    [retries] is the number of re-sends still allowed, the count given
    to [SetRetryCount].  The model is for counts of zero or more and for
    a context that stays live during the call: with a negative count
    resty sends nothing and hands back no response at all, on which
    [makeRequest] does not return normally; here such a count is read as
    zero.  The two sinks are shared by all attempts; the waits between
    attempts are not represented.  The result is the extended wire log,
    the result sink after the last attempt and the last exchange. *)
Fixpoint restyExecute (retries : nat) (wire : list Request) (rq : Request)
    (sink : option R) (apiError : APIError.t)
  : list Request * option R * Exchange R :=
  let ex := roundTrip wire rq sink apiError in
  let wire := wire ++ [rq] in
  let sink := storeResult sink (ex_stored ex) in
  match retries with
  | O => (wire, sink, ex)
  | S n =>
      if retryCondition (ex_resp ex) (ex_err ex)
      then restyExecute n wire rq sink (ex_apiError ex)
      else (wire, sink, ex)
  end.

(** [makeRequest].  Returns the client after the call (limiter and
    wire log), the result sink after the call and the Go error.  As
    [restyExecute], it stands for clients whose retry count is zero or
    more. *)
Definition makeRequest (c : Client) (ctx : Context) (method path : string)
    (body : option Body) (result : option R)
  : Client * option R * option error :=
  (* Apply rate limiting *)
  let '(lim, werr) := Limiter_Wait ctx (rateLimiter c) in
  let c := set_rateLimiter lim c in
  match werr with
  | Some err => (c, result, Some (wrapError "rate limit wait failed: " err))
  | None =>
    match verbOf (strings_ToUpper method) with
    | None =>
        (c, result,
         Some (errorString ("unsupported HTTP method: " +:+ method)))
    | Some verb =>
      let rq := {| rq_Verb := verb; rq_Path := path; rq_Body := body |} in
      let '(w, result, ex) :=
        restyExecute (Z.to_nat (Resty.RetryCount (httpClient c)))
                     (wire c) rq result APIError.zero in
      let c := set_wire w c in
      let apiError := ex_apiError ex in
      let resp := ex_resp ex in
      (* Handle network errors *)
      match ex_err ex with
      | Some err => (c, result, Some (wrapError "request failed: " err))
      | None =>
        (* Handle API errors *)
        if 400 <=? StatusCode resp then
          if decide (APIError.Message apiError ≠ "") then
            (c, result,
             Some (EAPIError
                     (APIError.set_StatusCode (StatusCode resp) apiError)))
          else
            (* Fallback error *)
            (c, result,
             Some (EAPIError
               (APIError.mk (StatusCode resp)
                  ("API request failed with status "
                     +:+ pretty (StatusCode resp))
                  "" ∅ (Header_Get (Header resp) "X-Request-ID") "")))
        else (c, result, None)
      end
    end
  end.
End WithSink.
End Dispatcher.

(** ** Service methods (client.go, zerodb.go, auth.go, embeddings.go)

    A method whose Go signature takes a request pointer returns, after
    the client, the state of the caller's request struct after the call
    (nil when the caller passed nil); then come the Go results. *)

(** [Client.Health]. *)
Definition Health `{P : Platform} `{T : !Transport HealthResponse.t}
    (c : Client) (ctx : Context)
  : Client * option HealthResponse.t * option error :=
  let '(c, result, err) :=
    makeRequest c ctx "GET" "/health" None (Some HealthResponse.zero) in
  match err with
  | Some e => (c, None, Some e)
  | None => (c, result, None)
  end.

Module ProjectsService.
Definition Create `{P : Platform} `{T : !Transport Project.t}
    (c : Client) (ctx : Context) (req : option CreateProjectRequest.t)
  : Client * option Project.t * option error :=
  match req with
  | None =>
      (c, None, Some (NewValidationError "request" "request cannot be nil" VNil))
  | Some r =>
    if decide (CreateProjectRequest.Name r = "") then
      (c, None,
       Some (NewValidationError "name" "project name is required"
               (VString (CreateProjectRequest.Name r))))
    else
      let '(c, result, err) :=
        makeRequest c ctx "POST" "/api/v1/zerodb/projects"
                    (Some (BodyCreateProject r)) (Some Project.zero) in
      match err with
      | Some e => (c, None, Some e)
      | None => (c, result, None)
      end
  end.

Definition Get `{P : Platform} `{T : !Transport Project.t}
    (c : Client) (ctx : Context) (projectID : string)
  : Client * option Project.t * option error :=
  if decide (projectID = "") then
    (c, None,
     Some (NewValidationError "project_id" "project ID is required"
             (VString projectID)))
  else
    let path := "/api/v1/zerodb/projects/" +:+ projectID in
    let '(c, result, err) :=
      makeRequest c ctx "GET" path None (Some Project.zero) in
    match err with
    | Some e => (c, None, Some e)
    | None => (c, result, None)
    end.
End ProjectsService.

Module VectorsService.
Definition Search `{P : Platform} `{T : !Transport VectorSearchResponse.t}
    (c : Client) (ctx : Context) (projectID : string)
    (req : option VectorSearchRequest.t)
  : Client * option VectorSearchRequest.t
    * option VectorSearchResponse.t * option error :=
  if decide (projectID = "") then
    (c, req, None,
     Some (NewValidationError "project_id" "project ID is required"
             (VString projectID)))
  else
    match req with
    | None =>
        (c, None, None,
         Some (NewValidationError "request" "request cannot be nil" VNil))
    | Some r =>
      if decide (length (VectorSearchRequest.Vector r) = 0%nat) then
        (c, Some r, None,
         Some (NewValidationError "vector" "vector cannot be empty"
                 (VFloats (VectorSearchRequest.Vector r))))
      else
        let r := if VectorSearchRequest.TopK r <=? 0
                 then VectorSearchRequest.set_TopK 5 r else r in
        let path :=
          "/api/v1/zerodb/projects/" +:+ projectID +:+ "/vectors/search" in
        let '(c, result, err) :=
          makeRequest c ctx "POST" path (Some (BodyVectorSearch r))
                      (Some VectorSearchResponse.zero) in
        match err with
        | Some e => (c, Some r, None, Some e)
        | None => (c, Some r, result, None)
        end
    end.

Definition Upsert `{P : Platform} `{T : !Transport UpsertVectorsResponse.t}
    (c : Client) (ctx : Context) (projectID : string)
    (req : option UpsertVectorsRequest.t)
  : Client * option UpsertVectorsResponse.t * option error :=
  if decide (projectID = "") then
    (c, None,
     Some (NewValidationError "project_id" "project ID is required"
             (VString projectID)))
  else
    match req with
    | None =>
        (c, None,
         Some (NewValidationError "request" "request cannot be nil" VNil))
    | Some r =>
      if decide (length (UpsertVectorsRequest.Vectors r) = 0%nat) then
        (c, None,
         Some (NewValidationError "vectors" "vectors cannot be empty"
                 (VVectorItems (UpsertVectorsRequest.Vectors r))))
      else
        let path := "/api/v1/zerodb/projects/" +:+ projectID +:+ "/vectors" in
        let '(c, result, err) :=
          makeRequest c ctx "POST" path (Some (BodyUpsertVectors r))
                      (Some UpsertVectorsResponse.zero) in
        match err with
        | Some e => (c, None, Some e)
        | None => (c, result, None)
        end
    end.
End VectorsService.

Module MemoryService.
Definition Create `{P : Platform} `{T : !Transport MemoryItem.t}
    (c : Client) (ctx : Context) (req : option CreateMemoryRequest.t)
  : Client * option CreateMemoryRequest.t
    * option MemoryItem.t * option error :=
  match req with
  | None =>
      (c, None, None,
       Some (NewValidationError "request" "request cannot be nil" VNil))
  | Some r =>
    if decide (CreateMemoryRequest.Content r = "") then
      (c, Some r, None,
       Some (NewValidationError "content" "content is required"
               (VString (CreateMemoryRequest.Content r))))
    else
      let r := if decide (CreateMemoryRequest.Priority r = "")
               then CreateMemoryRequest.set_Priority MemoryPriorityMedium r
               else r in
      let '(c, result, err) :=
        makeRequest c ctx "POST" "/api/v1/memory" (Some (BodyCreateMemory r))
                    (Some MemoryItem.zero) in
      match err with
      | Some e => (c, Some r, None, Some e)
      | None => (c, Some r, result, None)
      end
  end.

Definition Search `{P : Platform} `{T : !Transport SearchMemoryResponse.t}
    (c : Client) (ctx : Context) (req : option SearchMemoryRequest.t)
  : Client * option SearchMemoryRequest.t
    * option SearchMemoryResponse.t * option error :=
  match req with
  | None =>
      (c, None, None,
       Some (NewValidationError "request" "request cannot be nil" VNil))
  | Some r =>
    if decide (SearchMemoryRequest.Query r = "") then
      (c, Some r, None,
       Some (NewValidationError "query" "query is required"
               (VString (SearchMemoryRequest.Query r))))
    else
      let r := if decide (SearchMemoryRequest.Limit r = 0)
               then SearchMemoryRequest.set_Limit 10 r else r in
      let '(c, result, err) :=
        makeRequest c ctx "POST" "/api/v1/memory/search"
                    (Some (BodySearchMemory r))
                    (Some SearchMemoryResponse.zero) in
      match err with
      | Some e => (c, Some r, None, Some e)
      | None => (c, Some r, result, None)
      end
  end.
End MemoryService.

Module AuthService.
Definition Login `{P : Platform} `{T : !Transport TokenResponse.t}
    (c : Client) (ctx : Context) (req : option LoginRequest.t)
  : Client * option TokenResponse.t * option error :=
  match req with
  | None =>
      (c, None,
       Some (NewValidationError "request" "request cannot be nil" VNil))
  | Some r =>
    if decide (LoginRequest.Username r = "") then
      (c, None,
       Some (NewValidationError "username" "username is required"
               (VString (LoginRequest.Username r))))
    else if decide (LoginRequest.Password r = "") then
      (c, None,
       Some (NewValidationError "password" "password is required"
               (VString "")))
    else
      let '(c, result, err) :=
        makeRequest c ctx "POST" "/api/v1/auth/login" (Some (BodyLogin r))
                    (Some TokenResponse.zero) in
      match err with
      | Some e => (c, None, Some e)
      | None =>
        (* Calculate expiration time *)
        let result :=
          (fun res =>
             TokenResponse.set_ExpiresAt
               (Time_Add (TokenResponse.IssuedAt res)
                         (wrap64 (TokenResponse.ExpiresIn res * Second))) res)
            <$> result in
        (c, result, None)
      end
  end.
End AuthService.

Module EmbeddingsService.
Definition Generate `{P : Platform} `{T : !Transport GenerateResponse.t}
    (c : Client) (ctx : Context) (texts : list string) (model : string)
    (normalize : bool)
  : Client * option GenerateResponse.t * option error :=
  if decide (length texts = 0%nat) then
    (c, None,
     Some (NewValidationError "texts" "texts list cannot be empty"
             (VStrings texts)))
  else if decide (100 < Z.of_nat (length texts)) then
    (c, None,
     Some (NewValidationError "texts" "maximum 100 texts per request"
             (VInt (Z.of_nat (length texts)))))
  else
    (* Set defaults *)
    let model := if decide (model = "") then "BAAI/bge-small-en-v1.5"
                 else model in
    let req := GenerateRequest.mk texts model normalize in
    let '(c, result, err) :=
      makeRequest c ctx "POST" "/api/v1/embeddings/generate"
                  (Some (BodyGenerate req)) (Some GenerateResponse.zero) in
    match err with
    | Some e => (c, None, Some e)
    | None => (c, result, None)
    end.
End EmbeddingsService.

(** ** Token inspection helpers (auth.go) *)

Module RegisteredClaims.
Record t := mk {
  Issuer : string;
  Subject : string;
  Audience : list string;
  ExpiresAt : option Time;
  NotBefore : option Time;
  IssuedAt : option Time;
  ID : string
}.
End RegisteredClaims.

Module TokenClaims.
Record t := mk {
  UserID : string;
  Email : string;
  Organization : string;
  Role : string;
  Permissions : list string;
  Registered : RegisteredClaims.t
}.

(** The promoted field [claims.ExpiresAt] of the embedded
    [jwt.RegisteredClaims]. *)
Definition ExpiresAt (c : t) : option Time :=
  RegisteredClaims.ExpiresAt (Registered c).
End TokenClaims.

(** The dynamic type of [token.Claims] (a [jwt.Claims] interface value). *)
Inductive Claims :=
| tokenClaims (c : TokenClaims.t)
| mapClaims (m : JSONObject).

(** [jwt.Parser.ParseUnverified] of golang-jwt: the claims of the parsed
    token, or the parse error. *)
Class JWT := jwt_ParseUnverified : string -> Claims + error.

(** [ParseToken]: the claims, or the error. *)
Definition ParseToken `{J : JWT} (tokenString : string) : TokenClaims.t + error :=
  match jwt_ParseUnverified tokenString with
  | inr err => inr (wrapError "failed to parse token: " err)
  | inl (tokenClaims claims) => inl claims
  | inl _ => inr (errorString "invalid token claims")
  end.

(** [IsTokenExpired]. *)
Definition IsTokenExpired `{P : Platform} `{J : JWT} (tokenString : string)
  : bool * option error :=
  match ParseToken tokenString with
  | inr err => (true, Some err)
  | inl claims =>
    match TokenClaims.ExpiresAt claims with
    | None => (false, None) (* No expiration *)
    | Some exp => (Time_Before exp time_Now, None)
    end
  end.

(** [GetTokenExpirationTime]. *)
Definition GetTokenExpirationTime `{J : JWT} (tokenString : string)
  : option Time * option error :=
  match ParseToken tokenString with
  | inr err => (None, Some err)
  | inl claims =>
    match TokenClaims.ExpiresAt claims with
    | None => (None, None) (* No expiration *)
    | Some exp => (Some exp, None)
    end
  end.

(** ** Reference collaborators

    Executable stand-ins for the third-party packages, used to run the
    definitions above on concrete inputs. *)

(** A token bucket in the manner of golang.org/x/time/rate with the clock
    held still: [Wait] refuses when the burst is below one or the context
    is done; otherwise it reserves one token, the count going negative
    when the caller has to sleep for it. *)
Module Bucket.
Record t := mk { limit : Z; burst : Z; tokens : Z }.

Definition New (limit burst : Z) : t := mk limit burst burst.

Definition Wait (ctx : Context) (l : t) : t * option error :=
  if burst l <? 1 then
    (l, Some (errorString ("rate: Wait(n=1) exceeds limiter's burst "
                             +:+ pretty (burst l))))
  else
    match ctx_Err ctx with
    | Some err => (l, Some err)
    | None => (mk (limit l) (burst l) (tokens l - 1), None)
    end.
End Bucket.

(** [strings.ToUpper] on ASCII text. *)
Definition upperAscii (a : ascii) : ascii :=
  let n := N_of_ascii a in
  if ((97 <=? n) && (n <=? 122))%N then ascii_of_N (n - 32) else a.

Fixpoint asciiToUpper (s : string) : string :=
  match s with
  | EmptyString => EmptyString
  | String a rest => String (upperAscii a) (asciiToUpper rest)
  end.

(** A URL check that rejects what the SDK's own test rejects: text that
    starts with a colon has no scheme. *)
Definition refParse (rawURL : string) : option error :=
  if String.prefix ":" rawURL
  then Some (errorString "missing protocol scheme")
  else None.

Definition refPlatform : Platform := {|
  Limiter := Bucket.t;
  rate_NewLimiter := Bucket.New;
  Limiter_Wait := Bucket.Wait;
  strings_ToUpper := asciiToUpper;
  url_Parse := refParse;
  time_Now := 1000
|}.

(** A remote end that answers the n-th request of a client with the n-th
    entry of a script, and with [fallback] once the script is used up. *)
Definition scripted {R} (script : list (Exchange R)) (fallback : Exchange R)
  : Transport R :=
  fun wire _ _ _ => nth (length wire) script fallback.

(** An exchange that received [status] with no decoded bodies. *)
Definition answered {R} (status : Z) : Exchange R :=
  {| ex_resp := {| StatusCode := status; Header := ∅ |};
     ex_err := None; ex_stored := None; ex_apiError := APIError.zero |}.

(** An exchange that failed in the transport with [err]. *)
Definition refused {R} (err : error) : Exchange R :=
  {| ex_resp := {| StatusCode := 0; Header := ∅ |};
     ex_err := Some err; ex_stored := None; ex_apiError := APIError.zero |}.

(** A server answering every request with [status]. *)
Definition always {R} (status : Z) : Transport R := scripted [] (answered status).

Definition refClaims (exp : option Time) : TokenClaims.t :=
  TokenClaims.mk "u1" "u1@example.com" "" "admin" []
    (RegisteredClaims.mk "" "" [] exp None None "").

(** A parser that knows two tokens, one without an expiry claim and one
    that expired at instant 500, and rejects everything else. *)
Definition refJWT : JWT :=
  fun tokenString =>
    if decide (tokenString = "h.noexp.s") then inl (tokenClaims (refClaims None))
    else if decide (tokenString = "h.exp500.s")
         then inl (tokenClaims (refClaims (Some 500)))
         else inr (errorString "token is malformed").

(** The minimal configuration of the SDK's tests, [Config{APIKey: key}]. *)
Definition minimalConfig (key : string) : Config.t :=
  Config.mk key "" "" "" "" None 0 None 0 None false.

(** The client [NewClient] builds from the minimal configuration on the
    reference platform. *)
Definition refClient : @Client refPlatform :=
  {| httpClient :=
       Resty.mk (pooledHTTPClient DefaultTimeout 100 10 (90 * Second))
         DefaultBaseURL DefaultTimeout
         (<["Authorization" := "Bearer test-key"]>
            (<["Accept" := "application/json"]>
               (<["Content-Type" := "application/json"]>
                  (<["User-Agent" := UserAgent]> ∅))))
         3 (100 * Millisecond) (10 * Second) false;
     config := Config.mk "test-key" "" DefaultBaseURL "" "" None DefaultTimeout
                         None DefaultRateLimit None false;
     rateLimiter := (Bucket.mk 100 100 100 : @Limiter refPlatform);
     tracer := otel_Tracer "ainative-go-sdk";
     wire := [] |}.

(** A Go result pair is well formed when exactly one of the result and
    the error is non-nil. *)
Definition exactlyOne {A} (result : option A) (err : option error) : Prop :=
  (is_Some result /\ err = None) \/ (result = None /\ is_Some err).

(** The request ["GET /health"] without a body. *)
Definition getHealth : Request :=
  {| rq_Verb := GET; rq_Path := "/health"; rq_Body := None |}.

(** ** Further operations of the SDK

    The rest of what client.go offers on a built client, service methods
    of zerodb.go and auth.go that send no body, and the key-masking
    helper of the command-line tool (cmd/ainative/config.go). *)

(** The assignments [config.ProjectID = id] and
    [config.OrganizationID = id]. *)
Definition Config_set_ProjectID (id : string) (c : Config.t) : Config.t :=
  Config.mk (Config.APIKey c) (Config.APISecret c) (Config.BaseURL c)
            (Config.OrganizationID c) id (Config.HTTPClient_ c)
            (Config.Timeout c) (Config.RetryConfig_ c) (Config.RateLimit c)
            (Config.Tracer_ c) (Config.Debug c).
Definition Config_set_OrganizationID (id : string) (c : Config.t) : Config.t :=
  Config.mk (Config.APIKey c) (Config.APISecret c) (Config.BaseURL c)
            id (Config.ProjectID c) (Config.HTTPClient_ c)
            (Config.Timeout c) (Config.RetryConfig_ c) (Config.RateLimit c)
            (Config.Tracer_ c) (Config.Debug c).

(** resty's [SetHeader]: the header is stored under its key, replacing
    what was there.  The keys are the spellings the SDK writes, which
    stay pairwise distinct under HTTP's canonical form. *)
Definition Resty_SetHeader (key value : string) (h : Resty.t) : Resty.t :=
  Resty.mk (Resty.base h) (Resty.BaseURL h) (Resty.Timeout h)
           (<[key := value]> (Resty.Headers h))
           (Resty.RetryCount h) (Resty.RetryWaitTime h)
           (Resty.RetryMaxWaitTime h) (Resty.Debug h).

Section ClientSetters.
Context `{P : Platform}.

Definition set_config (cfg : Config.t) (c : Client) : Client :=
  {| httpClient := httpClient c; config := cfg;
     rateLimiter := rateLimiter c; tracer := tracer c; wire := wire c |}.

Definition set_httpClient (h : Resty.t) (c : Client) : Client :=
  {| httpClient := h; config := config c;
     rateLimiter := rateLimiter c; tracer := tracer c; wire := wire c |}.

(** [Client.GetConfig]. *)
Definition GetConfig (c : Client) : Config.t := config c.

(** [Client.SetProjectID]: the client after the call. *)
Definition SetProjectID (c : Client) (projectID : string) : Client :=
  let c := set_config (Config_set_ProjectID projectID (config c)) c in
  if decide (projectID ≠ "")
  then set_httpClient (Resty_SetHeader "X-Project-ID" projectID (httpClient c)) c
  else set_httpClient (Resty_SetHeader "X-Project-ID" "" (httpClient c)) c.

(** [Client.SetOrganizationID]: the client after the call. *)
Definition SetOrganizationID (c : Client) (orgID : string) : Client :=
  let c := set_config (Config_set_OrganizationID orgID (config c)) c in
  if decide (orgID ≠ "")
  then set_httpClient
         (Resty_SetHeader "X-Organization-ID" orgID (httpClient c)) c
  else set_httpClient (Resty_SetHeader "X-Organization-ID" "" (httpClient c)) c.
End ClientSetters.

Module ListProjectsRequest.
Record t := mk {
  Limit : Z;
  Offset : Z;
  Status : ProjectStatus
}.

(** The zero value, as in [&ListProjectsRequest{}]. *)
Definition zero : t := mk 0 0 "".

(** The assignment [req.Limit = n]. *)
Definition set_Limit (n : Z) (r : t) : t := mk n (Offset r) (Status r).
End ListProjectsRequest.

Module ListProjectsResponse.
Record t := mk {
  Projects : list Project.t;
  TotalCount : Z;
  Limit : Z;
  Offset : Z
}.
Definition zero : t := mk [] 0 0 0.
End ListProjectsResponse.

(** The path [ProjectsService.List] builds for a request whose defaults
    are set: the two [Sprintf] calls. *)
Definition listProjectsPath (r : ListProjectsRequest.t) : string :=
  let path := "/api/v1/zerodb/projects?limit="
                +:+ pretty (ListProjectsRequest.Limit r)
                +:+ "&offset=" +:+ pretty (ListProjectsRequest.Offset r) in
  if decide (ListProjectsRequest.Status r ≠ "")
  then path +:+ "&status=" +:+ ListProjectsRequest.Status r
  else path.

(** [ProjectsService.List].  With a nil request the method works on a
    struct of its own and the caller has none to look at afterwards. *)
Definition ProjectsService_List `{P : Platform}
    `{T : !Transport ListProjectsResponse.t}
    (c : Client) (ctx : Context) (req : option ListProjectsRequest.t)
  : Client * option ListProjectsRequest.t
    * option ListProjectsResponse.t * option error :=
  let r := match req with
           | None => ListProjectsRequest.zero
           | Some r => r
           end in
  (* Set defaults *)
  let r := if decide (ListProjectsRequest.Limit r = 0)
           then ListProjectsRequest.set_Limit 10 r else r in
  let req' := match req with
              | None => None
              | Some _ => Some r
              end in
  let '(c, result, err) :=
    makeRequest c ctx "GET" (listProjectsPath r) None
                (Some ListProjectsResponse.zero) in
  match err with
  | Some e => (c, req', None, Some e)
  | None => (c, req', result, None)
  end.

(** [ProjectsService.Activate] and [ProjectsService.Delete]: calls that
    pass neither a body nor a result sink, so the sink type is [unit]. *)
Definition ProjectsService_Activate `{P : Platform} `{T : !Transport unit}
    (c : Client) (ctx : Context) (projectID : string)
  : Client * option error :=
  if decide (projectID = "") then
    (c, Some (NewValidationError "project_id" "project ID is required"
                (VString projectID)))
  else
    let path := "/api/v1/zerodb/projects/" +:+ projectID +:+ "/activate" in
    let '(c, _, err) := makeRequest c ctx "POST" path None None in
    (c, err).

Definition ProjectsService_Delete `{P : Platform} `{T : !Transport unit}
    (c : Client) (ctx : Context) (projectID : string)
  : Client * option error :=
  if decide (projectID = "") then
    (c, Some (NewValidationError "project_id" "project ID is required"
                (VString projectID)))
  else
    let path := "/api/v1/zerodb/projects/" +:+ projectID in
    let '(c, _, err) := makeRequest c ctx "DELETE" path None None in
    (c, err).

(** [AuthService.RevokeAPIKey] and [AuthService.Logout]. *)
Definition AuthService_RevokeAPIKey `{P : Platform} `{T : !Transport unit}
    (c : Client) (ctx : Context) (keyID : string)
  : Client * option error :=
  if decide (keyID = "") then
    (c, Some (NewValidationError "key_id" "key ID is required" (VString keyID)))
  else
    let path := "/api/v1/auth/api-keys/" +:+ keyID in
    let '(c, _, err) := makeRequest c ctx "DELETE" path None None in
    (c, err).

Definition AuthService_Logout `{P : Platform} `{T : !Transport unit}
    (c : Client) (ctx : Context)
  : Client * option error :=
  let '(c, _, err) :=
    makeRequest c ctx "POST" "/api/v1/auth/logout" None None in
  (c, err).

(** [maskString] of the command-line tool: Go strings are byte
    sequences, and so are the strings here. *)
Definition maskString (s : string) : string :=
  if (String.length s <=? 8)%nat then "***"
  else substring 0 4 s +:+ "..." +:+ substring (String.length s - 4) 4 s.

(** The base URL [NewClient] works with: the configured one, or the
    default when none is configured. *)
Definition effectiveBaseURL (cfg : Config.t) : string :=
  if decide (Config.BaseURL cfg = "") then DefaultBaseURL
  else Config.BaseURL cfg.

(** * Properties *)

Example refClient_is_built :
  @NewClient refPlatform (Some (minimalConfig "test-key"))
  = (Some (config refClient), Some refClient, None).
Proof. vm_compute. reflexivity. Qed.

(** Scenario of the SDK's retry test: 500 twice, then 200, with three
    retries allowed; the call succeeds on the third send. *)
Example retry_then_success :
  makeRequest (P := refPlatform)
              (T := scripted [answered 500; answered 500] (answered 200))
              refClient Background "GET" "/health" None
              (Some HealthResponse.zero)
  = ({| httpClient := httpClient refClient; config := config refClient;
        rateLimiter := (Bucket.mk 100 100 99 : @Limiter refPlatform);
        tracer := tracer refClient;
        wire := [getHealth; getHealth; getHealth] |},
     Some HealthResponse.zero, None).
Proof. vm_compute. reflexivity. Qed.

(** A 400 is not retried: one send, and the error is an [APIError] with
    the status of the response and the message and code of its body. *)
Example bad_request_is_final :
  let body := APIError.mk 0 "bad field" "INVALID" ∅ "" "" in
  let reply : Exchange unit :=
    {| ex_resp := {| StatusCode := 400; Header := ∅ |}; ex_err := None;
       ex_stored := None; ex_apiError := body |} in
  let out := makeRequest (P := refPlatform) (T := scripted [] reply)
                         refClient Background "POST" "/test" None None in
  wire out.1.1 = [{| rq_Verb := POST; rq_Path := "/test"; rq_Body := None |}]
  /\ exists e,
      out.2 = Some (EAPIError e)
      /\ APIError.StatusCode e = 400
      /\ APIError.Message e = "bad field"
      /\ APIError.Code e = "INVALID".
Proof.
  split; [vm_compute; reflexivity |].
  eexists. split; [vm_compute; reflexivity |]. repeat split.
Qed.

(** On a context that is already done the limiter refuses, nothing is
    sent and the limiter keeps its tokens. *)
Example canceled_before_dispatch :
  makeRequest (P := refPlatform) (T := always 200)
              refClient Canceled "GET" "/health" None (None : option unit)
  = (refClient, None,
     Some (wrapError "rate limit wait failed: "
                     (errorString "context canceled"))).
Proof. vm_compute. reflexivity. Qed.

Section DispatcherProperties.
Context `{P : Platform}.

Lemma verbOf_None (upper : string) :
  verbOf upper = None <-> upper ∉ supportedVerbs.
Proof.
  unfold verbOf, supportedVerbs. split.
  - intros Hn Hin%list_elem_of_In.
    repeat (destruct (decide _) as [?|?] in Hn; [discriminate |]).
    simpl in Hin. intuition congruence.
  - intros Hn.
    repeat (destruct (decide _) as [->|?];
            [exfalso; apply Hn, list_elem_of_In; simpl; tauto |]).
    reflexivity.
Qed.

Lemma verbOf_Some (upper : string) (verb : Verb) :
  verbOf upper = Some verb -> upper ∈ supportedVerbs.
Proof.
  unfold verbOf, supportedVerbs.
  repeat (destruct (decide _) as [->|?];
          [intros _; apply list_elem_of_In; simpl; tauto |]).
  discriminate.
Qed.

Section WithSink.
Context {R : Type} `{T : !Transport R}.

(** Every attempt of one resty call puts the same request on the wire:
    at least one, at most one more than the retries allowed. *)
Lemma restyExecute_wire retries wire0 rq (sink : option R) apiError :
  exists k : nat,
    (1 <= k <= S retries)%nat
    /\ (restyExecute retries wire0 rq sink apiError).1.1
       = wire0 ++ replicate k rq.
Proof.
  revert wire0 sink apiError.
  induction retries as [|n IH]; intros wire0 sink apiError; simpl.
  - exists 1%nat. split; [lia | reflexivity].
  - destruct (retryCondition _ _).
    + destruct (IH (wire0 ++ [rq])
                   (storeResult sink
                      (ex_stored (roundTrip wire0 rq sink apiError)))
                   (ex_apiError (roundTrip wire0 rq sink apiError)))
        as (k & Hk & ->).
      exists (S k). split; [lia |].
      rewrite <- app_assoc. reflexivity.
    + exists 1%nat. split; [lia | reflexivity].
Qed.

Lemma storeResult_is_Some (sink stored : option R) :
  is_Some (storeResult sink stored) <-> is_Some sink.
Proof.
  destruct sink; simpl; split; intros [x Hx]; try discriminate; eauto.
Qed.

(** resty never makes a result sink appear or disappear. *)
Lemma restyExecute_sink retries wire0 rq (sink : option R) apiError :
  is_Some (restyExecute retries wire0 rq sink apiError).1.2
  <-> is_Some sink.
Proof.
  revert wire0 sink apiError.
  induction retries as [|n IH]; intros wire0 sink apiError; simpl.
  - apply storeResult_is_Some.
  - destruct (retryCondition _ _); simpl.
    + rewrite IH. apply storeResult_is_Some.
    + apply storeResult_is_Some.
Qed.

(** The sink [makeRequest] was given is still there when it returns. *)
Lemma makeRequest_sink c ctx method path body (result : option R) :
  is_Some (makeRequest c ctx method path body result).1.2
  <-> is_Some result.
Proof.
  unfold makeRequest.
  destruct (Limiter_Wait ctx (rateLimiter c)) as [lim [werr|]];
    [reflexivity |].
  destruct (verbOf (strings_ToUpper method)) as [verb|]; [| reflexivity].
  pose proof (restyExecute_sink
                (Z.to_nat (Resty.RetryCount (httpClient (set_rateLimiter lim c))))
                (wire (set_rateLimiter lim c))
                {| rq_Verb := verb; rq_Path := path; rq_Body := body |}
                result APIError.zero) as Hs.
  destruct (restyExecute _ _ _ _ _) as [[w sink] ex]. simpl in Hs.
  destruct (ex_err ex); [exact Hs |].
  destruct (400 <=? StatusCode (ex_resp ex)); [| exact Hs].
  case_decide; exact Hs.
Qed.

(** C1 (as amended).  A call with a method outside the five verbs
    sends nothing, so nothing is retried, and leaves the result sink
    alone; the limiter is consulted first, so its state afterwards is
    the one a single [Wait] leaves; the error wraps the limiter's
    error when [Wait] failed and is otherwise the plain error
    "unsupported HTTP method: <method>"; it is never a [ConfigError]. *)
Theorem makeRequest_unsupported_method
    c ctx method path body (result : option R) c' sink err :
  strings_ToUpper method ∉ supportedVerbs ->
  makeRequest c ctx method path body result = (c', sink, err) ->
  wire c' = wire c
  /\ rateLimiter c' = (Limiter_Wait ctx (rateLimiter c)).1
  /\ sink = result
  /\ err = Some (match (Limiter_Wait ctx (rateLimiter c)).2 with
                 | Some werr => wrapError "rate limit wait failed: " werr
                 | None =>
                     errorString ("unsupported HTTP method: " +:+ method)
                 end)
  /\ forall e, err <> Some (EConfigError e).
Proof.
  intros Hverb%verbOf_None. unfold makeRequest. rewrite Hverb.
  destruct (Limiter_Wait ctx (rateLimiter c)) as [lim [werr|]];
    intros [= <- <- <-]; simpl; repeat split; try discriminate.
Qed.

(** C2 (as amended).  Once resty has returned a response without an
    error, [makeRequest] returns no error exactly when the status is
    below 400; for a status of 400 or more it returns an [APIError]
    with that status, and when no message was decoded from the body
    that [APIError] has the generic message and the X-Request-ID
    header. *)
Theorem makeRequest_classifies_status
    c ctx method path body (result : option R) lim verb w sink ex :
  Limiter_Wait ctx (rateLimiter c) = (lim, None) ->
  verbOf (strings_ToUpper method) = Some verb ->
  restyExecute (Z.to_nat (Resty.RetryCount (httpClient c))) (wire c)
               {| rq_Verb := verb; rq_Path := path; rq_Body := body |}
               result APIError.zero = (w, sink, ex) ->
  ex_err ex = None ->
  let status := StatusCode (ex_resp ex) in
  let err := (makeRequest c ctx method path body result).2 in
  (err = None <-> status < 400)
  /\ (400 <= status ->
      exists e,
        err = Some (EAPIError e)
        /\ APIError.StatusCode e = status
        /\ (APIError.Message (ex_apiError ex) = "" ->
            e = APIError.mk status
                  ("API request failed with status " +:+ pretty status)
                  "" ∅ (Header_Get (Header (ex_resp ex)) "X-Request-ID") "")).
Proof.
  intros Hwait Hverb Hexec Herr status err. subst status err.
  unfold makeRequest. rewrite Hwait, Hverb. simpl.
  rewrite Hexec, Herr.
  destruct (Z.leb_spec 400 (StatusCode (ex_resp ex))) as [Hge|Hlt].
  - case_decide as Hmsg; simpl.
    + split; [split; [discriminate | lia] |].
      intros _. eexists. split; [reflexivity |].
      split; [reflexivity | contradiction].
    + split; [split; [discriminate | lia] |].
      intros _. eexists. split; [reflexivity |].
      split; reflexivity.
  - simpl. split; [split; [intros _; exact Hlt | reflexivity] | lia].
Qed.

(** C4 (as amended).  When resty returns an error, [makeRequest]
    returns the error built by [fmt.Errorf("request failed: %w", err)]:
    its text is the prefix followed by the original text, unwrapping
    it gives the original error, and it is not a [NetworkError]. *)
Theorem makeRequest_wraps_transport_failure
    c ctx method path body (result : option R) lim verb w sink ex err0 :
  Limiter_Wait ctx (rateLimiter c) = (lim, None) ->
  verbOf (strings_ToUpper method) = Some verb ->
  restyExecute (Z.to_nat (Resty.RetryCount (httpClient c))) (wire c)
               {| rq_Verb := verb; rq_Path := path; rq_Body := body |}
               result APIError.zero = (w, sink, ex) ->
  ex_err ex = Some err0 ->
  exists err,
    (makeRequest c ctx method path body result).2 = Some err
    /\ err = wrapError "request failed: " err0
    /\ Unwrap err = Some err0
    /\ Error err = "request failed: " +:+ Error err0
    /\ isNetworkError err = false.
Proof.
  intros Hwait Hverb Hexec Herr.
  unfold makeRequest. rewrite Hwait, Hverb. simpl.
  rewrite Hexec, Herr. simpl.
  eexists. repeat split.
Qed.
End WithSink.
End DispatcherProperties.

(** ** The dispatcher on the reference platform *)

Lemma makeRequest_unsupported_method_witness :
  exists c' sink err,
    makeRequest (P := refPlatform) (T := always 200)
                refClient Background "trace" "/test" None (None : option unit)
    = (c', sink, err)
    /\ wire c' = []
    /\ rateLimiter c' = Bucket.mk 100 100 99
    /\ sink = None
    /\ err = Some (errorString "unsupported HTTP method: trace")
    /\ forall e, err <> Some (EConfigError e).
Proof.
  eexists _, _, _. split; [vm_compute; reflexivity |].
  apply (makeRequest_unsupported_method (P := refPlatform) (T := always 200)
           refClient Background "trace" "/test" None None).
  - apply verbOf_None. vm_compute. reflexivity.
  - vm_compute. reflexivity.
Defined.

(** C1, the claim as stated fails.  On a live context the call
    [makeRequest(ctx, "UNSUPPORTED", "/test", nil, nil)] of the SDK's own
    test takes a token from the limiter before the method is looked at,
    and the error it returns is a plain error, not a [ConfigError]. *)
Lemma unsupported_method_takes_a_token :
  (asciiToUpper "UNSUPPORTED" ∉ supportedVerbs)
  /\ exists c' err,
      makeRequest (P := refPlatform) (T := always 200)
                  refClient Background "UNSUPPORTED" "/test" None
                  (None : option unit)
      = (c', None, Some err)
      /\ err = errorString "unsupported HTTP method: UNSUPPORTED"
      /\ isConfigError err = false
      /\ Bucket.tokens (rateLimiter refClient) = 100
      /\ Bucket.tokens (rateLimiter c') = 99
      /\ rateLimiter c' <> rateLimiter refClient.
Proof.
  split.
  - apply verbOf_None. vm_compute. reflexivity.
  - eexists _, _. split; [vm_compute; reflexivity |].
    repeat split. discriminate.
Qed.

Lemma makeRequest_classifies_status_witness :
  let err :=
    (makeRequest (P := refPlatform)
                 (T := scripted [answered 500; answered 500] (answered 404))
                 refClient Background "get" "/health" None
                 (Some HealthResponse.zero)).2 in
  (err = None <-> 404 < 400)
  /\ (400 <= 404 ->
      exists e,
        err = Some (EAPIError e)
        /\ APIError.StatusCode e = 404
        /\ (APIError.Message APIError.zero = "" ->
            e = APIError.mk 404 ("API request failed with status " +:+ pretty 404)
                            "" ∅ (Header_Get ∅ "X-Request-ID") "")).
Proof.
  apply (makeRequest_classifies_status (P := refPlatform)
           (T := scripted [answered 500; answered 500] (answered 404))
           refClient Background "get" "/health" None (Some HealthResponse.zero)
           (Bucket.mk 100 100 99) GET
           [getHealth; getHealth; getHealth] (Some HealthResponse.zero)
           (answered 404));
    vm_compute; reflexivity.
Defined.

(** C2, the claim as stated fails.  A response with status 304 is a
    completed exchange outside [200,299], and [makeRequest] returns no
    error for it. *)
Lemma not_modified_is_success :
  restyExecute (T := always 304) 3 [] getHealth (Some HealthResponse.zero)
               APIError.zero
  = ([getHealth], Some HealthResponse.zero, answered 304)
  /\ (makeRequest (P := refPlatform) (T := always 304)
                  refClient Background "GET" "/health" None
                  (Some HealthResponse.zero)).2 = None
  /\ ~ (200 <= 304 <= 299).
Proof.
  split; [vm_compute; reflexivity |].
  split; [vm_compute; reflexivity | lia].
Qed.

Lemma makeRequest_wraps_transport_failure_witness :
  exists err,
    (makeRequest (P := refPlatform)
                 (T := scripted [] (refused (errorString "connection refused")))
                 refClient Background "GET" "/health" None
                 (Some HealthResponse.zero)).2 = Some err
    /\ err = wrapError "request failed: " (errorString "connection refused")
    /\ Unwrap err = Some (errorString "connection refused")
    /\ Error err = "request failed: " +:+ Error (errorString "connection refused")
    /\ isNetworkError err = false.
Proof.
  apply (makeRequest_wraps_transport_failure (P := refPlatform)
           (T := scripted [] (refused (errorString "connection refused")))
           refClient Background "GET" "/health" None (Some HealthResponse.zero)
           (Bucket.mk 100 100 99) GET
           [getHealth; getHealth; getHealth; getHealth]
           (Some HealthResponse.zero)
           (refused (errorString "connection refused")));
    vm_compute; reflexivity.
Defined.

(** C4, the claim as stated fails.  When every attempt is refused by the
    transport, the error [makeRequest] returns is the wrapping error of
    [fmt.Errorf], whose dynamic type is not [NetworkError]. *)
Lemma transport_failure_is_not_NetworkError :
  exists err,
    (makeRequest (P := refPlatform)
                 (T := scripted [] (refused (errorString "connection refused")))
                 refClient Background "GET" "/health" None
                 (Some HealthResponse.zero)).2 = Some err
    /\ isNetworkError err = false
    /\ forall message cause, err <> ENetworkError message cause.
Proof.
  eexists. split; [vm_compute; reflexivity |].
  split; [reflexivity | discriminate].
Qed.

(** ** Retry *)

Lemma IsRetryable_iff (e : APIError.t) :
  IsRetryable e = true
  <-> 500 <= APIError.StatusCode e <= 599 \/ APIError.StatusCode e = 429.
Proof.
  unfold IsRetryable, IsServerError, IsRateLimitError, StatusTooManyRequests.
  rewrite orb_true_iff, andb_true_iff, Z.leb_le, Z.ltb_lt, Z.eqb_eq. lia.
Qed.

Lemma retryCondition_iff (r : Response) (err : option error) :
  retryCondition r err = true
  <-> err <> None \/ 500 <= StatusCode r \/ StatusCode r = 429.
Proof.
  unfold retryCondition. destruct err as [e|].
  - split; [intros _; left; discriminate | reflexivity].
  - rewrite orb_true_iff, Z.leb_le, Z.eqb_eq.
    split; [tauto | intros [Hn|H]; [contradiction | exact H]].
Qed.

(** An attempt whose outcome does not meet the retry condition is the
    last one. *)
Lemma restyExecute_stops {R} `{!Transport R}
    retries wire0 rq (sink : option R) apiError :
  let ex := roundTrip wire0 rq sink apiError in
  retryCondition (ex_resp ex) (ex_err ex) = false ->
  restyExecute retries wire0 rq sink apiError
  = (wire0 ++ [rq], storeResult sink (ex_stored ex), ex).
Proof.
  intros ex Hno. destruct retries as [|n]; simpl; [reflexivity |].
  fold ex. rewrite Hno. reflexivity.
Qed.

(** An attempt whose outcome meets the retry condition is followed by
    another one as long as a retry is left. *)
Lemma restyExecute_retries {R} `{!Transport R}
    n wire0 rq (sink : option R) apiError :
  let ex := roundTrip wire0 rq sink apiError in
  retryCondition (ex_resp ex) (ex_err ex) = true ->
  restyExecute (S n) wire0 rq sink apiError
  = restyExecute n (wire0 ++ [rq]) rq (storeResult sink (ex_stored ex))
                 (ex_apiError ex).
Proof. intros ex Hyes. simpl. fold ex. rewrite Hyes. reflexivity. Qed.

(** C3, at the failing input.  A response with status 600 is neither a
    network failure, nor a 5xx, nor a 429: [IsRetryable] says no, yet the
    retry condition installed by [NewClient] says yes, and the request is
    sent again until the retries are used up. *)
Theorem retry_condition_at_600 :
  retryCondition {| StatusCode := 600; Header := ∅ |} None = true
  /\ IsRetryable (NewAPIError 600 "" "") = false
  /\ (restyExecute (T := always 600) 3 [] getHealth (None : option unit)
                   APIError.zero).1.1
     = [getHealth; getHealth; getHealth; getHealth]
  /\ exists c' e,
      makeRequest (P := refPlatform) (T := always 600)
                  refClient Background "GET" "/health" None
                  (None : option unit)
      = (c', None, Some (EAPIError e))
      /\ wire c' = [getHealth; getHealth; getHealth; getHealth]
      /\ APIError.StatusCode e = 600
      /\ IsRetryable e = false.
Proof.
  split; [reflexivity |]. split; [reflexivity |].
  split; [vm_compute; reflexivity |].
  eexists _, _. split; [vm_compute; reflexivity |].
  repeat split.
Qed.

(** ** Construction *)

Section ConstructionProperties.
Context `{P : Platform}.

(** C5 (as amended).  [NewClient] on a nil configuration, or on one
    with an empty API key, returns no client, so no limiter and no
    HTTP client exist to interact with, and leaves the configuration
    as it was; the error is the plain error "config cannot be nil",
    respectively "API key is required", and not a [ConfigError]. *)
Theorem NewClient_rejects_missing_key :
  NewClient None = (None, None, Some (errorString "config cannot be nil"))
  /\ forall cfg,
      Config.APIKey cfg = "" ->
      NewClient (Some cfg)
      = (Some cfg, None, Some (errorString "API key is required")).
Proof.
  split; [reflexivity |].
  intros cfg Hkey. unfold NewClient. rewrite decide_True by exact Hkey.
  reflexivity.
Qed.

(** C10 (as amended).  [NewClient] leaves in the caller's configuration
    every field other than [BaseURL], [Timeout] and [RateLimit] as it
    found it; once the nil and API-key checks are passed, it stores the
    default base URL over an empty [BaseURL], 30 seconds over a zero
    [Timeout] and 100 over a zero [RateLimit], and nothing else; with
    an empty API key it leaves the whole configuration as it was.  The
    client it returns holds that same configuration. *)
Theorem NewClient_defaults_in_place (cfg : Config.t) :
  exists cfg',
    (NewClient (Some cfg)).1.1 = Some cfg'
    /\ (Config.APIKey cfg' = Config.APIKey cfg
        /\ Config.APISecret cfg' = Config.APISecret cfg
        /\ Config.OrganizationID cfg' = Config.OrganizationID cfg
        /\ Config.ProjectID cfg' = Config.ProjectID cfg
        /\ Config.HTTPClient_ cfg' = Config.HTTPClient_ cfg
        /\ Config.RetryConfig_ cfg' = Config.RetryConfig_ cfg
        /\ Config.Tracer_ cfg' = Config.Tracer_ cfg
        /\ Config.Debug cfg' = Config.Debug cfg)
    /\ (Config.APIKey cfg <> "" ->
        Config.BaseURL cfg'
        = (if decide (Config.BaseURL cfg = "")
           then "https://api.ainative.studio" else Config.BaseURL cfg)
        /\ Config.Timeout cfg'
           = (if decide (Config.Timeout cfg = 0)
              then 30 * Second else Config.Timeout cfg)
        /\ Config.RateLimit cfg'
           = (if decide (Config.RateLimit cfg = 0)
              then 100 else Config.RateLimit cfg))
    /\ (forall c, (NewClient (Some cfg)).1.2 = Some c -> config c = cfg')
    /\ (Config.APIKey cfg = "" -> cfg' = cfg).
Proof.
  unfold NewClient.
  destruct (decide (Config.APIKey cfg = "")) as [Hkey|Hkey].
  - exists cfg. simpl.
    split; [reflexivity |]. split; [repeat split |].
    split; [contradiction |]. split; [discriminate | reflexivity].
  - cbv zeta.
    destruct (decide (Config.BaseURL cfg = ""));
      cbn [Config.Timeout Config.set_BaseURL];
      destruct (decide (Config.Timeout cfg = 0));
      cbn [Config.RateLimit Config.set_Timeout Config.set_BaseURL];
      destruct (decide (Config.RateLimit cfg = 0));
      destruct (url_Parse _); cbn [fst snd];
      eexists; (split; [reflexivity |]); cbn;
      (split; [repeat split |]);
      (split; [intros _; repeat split |]);
      (split; [| contradiction]);
      try discriminate;
      intros c [= <-]; reflexivity.
Qed.
End ConstructionProperties.

Lemma NewClient_rejects_missing_key_witness :
  Config.APIKey (minimalConfig "") = ""
  /\ NewClient (P := refPlatform) (Some (minimalConfig ""))
     = (Some (minimalConfig ""), None, Some (errorString "API key is required")).
Proof.
  split; [reflexivity |].
  apply (proj2 (NewClient_rejects_missing_key (P := refPlatform))).
  reflexivity.
Defined.

(** C5, the claim as stated fails.  The configuration [Config{APIKey: ""}]
    of the SDK's own test makes [NewClient] fail with an error that is
    not a [ConfigError]. *)
Lemma missing_key_error_is_not_ConfigError :
  exists err,
    NewClient (P := refPlatform) (Some (minimalConfig ""))
    = (Some (minimalConfig ""), None, Some err)
    /\ Error err = "API key is required"
    /\ isConfigError err = false
    /\ forall e, err <> EConfigError e.
Proof.
  eexists. split; [vm_compute; reflexivity |].
  split; [reflexivity |]. split; [reflexivity | discriminate].
Qed.

Lemma NewClient_defaults_in_place_witness :
  exists cfg',
    (NewClient (P := refPlatform) (Some (minimalConfig "test-key"))).1.1
    = Some cfg'
    /\ Config.BaseURL cfg' = "https://api.ainative.studio"
    /\ Config.Timeout cfg' = 30 * Second
    /\ Config.RateLimit cfg' = 100.
Proof.
  destruct (NewClient_defaults_in_place (P := refPlatform)
              (minimalConfig "test-key"))
    as (cfg' & Hcfg & _ & Hdef & _).
  exists cfg'. split; [exact Hcfg |].
  apply Hdef. discriminate.
Defined.

(** ** Service methods *)

Section ServiceProperties.
Context `{P : Platform}.

(** What a call of [makeRequest] adds to the wire is a number of copies
    of one request that carries the body it was given. *)
Lemma makeRequest_wire {R} `{!Transport R}
    c ctx method path body (result : option R) :
  exists sent,
    wire (makeRequest c ctx method path body result).1.1 = wire c ++ sent
    /\ Forall (fun rq => rq_Path rq = path /\ rq_Body rq = body) sent.
Proof.
  unfold makeRequest.
  destruct (Limiter_Wait ctx (rateLimiter c)) as [lim [werr|]].
  { exists []. simpl. rewrite app_nil_r. split; [reflexivity | constructor]. }
  destruct (verbOf (strings_ToUpper method)) as [verb|].
  2: { exists []. simpl. rewrite app_nil_r. split; [reflexivity | constructor]. }
  destruct (restyExecute_wire
              (Z.to_nat (Resty.RetryCount (httpClient (set_rateLimiter lim c))))
              (wire (set_rateLimiter lim c))
              {| rq_Verb := verb; rq_Path := path; rq_Body := body |}
              result APIError.zero) as (k & _ & Hw).
  destruct (restyExecute _ _ _ _ _) as [[w sink] ex]. simpl in Hw. subst w.
  exists (replicate k {| rq_Verb := verb; rq_Path := path; rq_Body := body |}).
  split.
  - destruct (ex_err ex); [reflexivity |].
    destruct (400 <=? StatusCode (ex_resp ex)); [| reflexivity].
    case_decide; reflexivity.
  - apply Forall_forall. intros rq Hin%elem_of_replicate.
    destruct Hin as [-> _]. split; reflexivity.
Qed.

(** A method that hands [makeRequest] a fresh sink and returns the sink
    on success and nil on error returns a well-formed pair. *)
Lemma dispatch_exactlyOne {R} `{!Transport R}
    c ctx method path body (zero : R) :
  let out := makeRequest c ctx method path body (Some zero) in
  match out.2 with
  | Some e => exactlyOne (None : option R) (Some e)
  | None => exactlyOne out.1.2 None
  end.
Proof.
  intros out. destruct (out.2) as [e|] eqn:He.
  - right. split; [reflexivity | eauto].
  - left. split; [| reflexivity].
    apply makeRequest_sink. eauto.
Qed.

Ltac dispatch_case :=
  match goal with
  | |- context [makeRequest ?c ?ctx ?m ?p ?b (Some ?z)] =>
      pose proof (dispatch_exactlyOne c ctx m p b z) as Hd;
      cbv zeta in Hd;
      destruct (makeRequest c ctx m p b (Some z)) as [[c1 r1] [e1|]];
      simpl in Hd |- *; try exact Hd
  end.

Ltac rejected := right; split; [reflexivity | eauto].

Section WithTransports.
Context `{THealth : !Transport HealthResponse.t}
        `{TProject : !Transport Project.t}
        `{TVectorSearch : !Transport VectorSearchResponse.t}
        `{TUpsert : !Transport UpsertVectorsResponse.t}
        `{TMemoryItem : !Transport MemoryItem.t}
        `{TSearchMemory : !Transport SearchMemoryResponse.t}
        `{TToken : !Transport TokenResponse.t}
        `{TGenerate : !Transport GenerateResponse.t}.

(** C6 (as amended).  Every service method that goes through
    [makeRequest] and returns a pointer to its result returns either
    a result and a nil error, or a nil result and an error. *)
Theorem service_results_exactlyOne (c : Client) (ctx : Context) :
  exactlyOne (Health c ctx).1.2 (Health c ctx).2
  /\ (forall req,
        let out := ProjectsService.Create c ctx req in
        exactlyOne out.1.2 out.2)
  /\ (forall projectID,
        let out := ProjectsService.Get c ctx projectID in
        exactlyOne out.1.2 out.2)
  /\ (forall projectID req,
        let out := VectorsService.Search c ctx projectID req in
        exactlyOne out.1.2 out.2)
  /\ (forall projectID req,
        let out := VectorsService.Upsert c ctx projectID req in
        exactlyOne out.1.2 out.2)
  /\ (forall req,
        let out := MemoryService.Create c ctx req in
        exactlyOne out.1.2 out.2)
  /\ (forall req,
        let out := MemoryService.Search c ctx req in
        exactlyOne out.1.2 out.2)
  /\ (forall req,
        let out := AuthService.Login c ctx req in
        exactlyOne out.1.2 out.2)
  /\ (forall texts model normalize,
        let out := EmbeddingsService.Generate c ctx texts model normalize in
        exactlyOne out.1.2 out.2).
Proof.
  repeat split.
  - unfold Health. dispatch_case.
  - intros [r|]; simpl; [| rejected].
    case_decide; [simpl; rejected |]. dispatch_case.
  - intros projectID. unfold ProjectsService.Get.
    case_decide; [simpl; rejected |]. dispatch_case.
  - intros projectID req. unfold VectorsService.Search.
    case_decide; [simpl; rejected |].
    destruct req as [r|]; [| simpl; rejected].
    case_decide; [simpl; rejected |]. dispatch_case.
  - intros projectID req. unfold VectorsService.Upsert.
    case_decide; [simpl; rejected |].
    destruct req as [r|]; [| simpl; rejected].
    case_decide; [simpl; rejected |]. dispatch_case.
  - intros [r|]; simpl; [| rejected].
    case_decide; [simpl; rejected |]. dispatch_case.
  - intros [r|]; simpl; [| rejected].
    case_decide; [simpl; rejected |]. dispatch_case.
  - intros [r|]; simpl; [| rejected].
    case_decide; [simpl; rejected |].
    case_decide; [simpl; rejected |]. dispatch_case.
    destruct Hd as [[Hs _]|[_ [x Hx]]]; [| discriminate].
    left. split; [| reflexivity]. apply fmap_is_Some. exact Hs.
  - intros texts model normalize. unfold EmbeddingsService.Generate.
    case_decide; [simpl; rejected |].
    case_decide; [simpl; rejected |]. dispatch_case.
Qed.

(** C7.  A service call that fails its pre-flight checks returns a
    [ValidationError] and the client exactly as it was: the limiter
    has not been asked for a token and nothing has been put on the
    wire. *)
Theorem preflight_failure_is_local (c : Client) (ctx : Context) :
  (forall projectID req,
      projectID = "" \/ req = None
      \/ (exists r, req = Some r /\ UpsertVectorsRequest.Vectors r = []) ->
      exists v,
        VectorsService.Upsert c ctx projectID req
        = (c, None, Some (EValidationError v)))
  /\ (forall projectID req,
        projectID = "" \/ req = None
        \/ (exists r, req = Some r /\ VectorSearchRequest.Vector r = []) ->
        exists v,
          VectorsService.Search c ctx projectID req
          = (c, req, None, Some (EValidationError v)))
  /\ (forall req,
        req = None
        \/ (exists r, req = Some r /\ CreateProjectRequest.Name r = "") ->
        exists v,
          ProjectsService.Create c ctx req
          = (c, None, Some (EValidationError v)))
  /\ (forall projectID,
        projectID = "" ->
        exists v,
          ProjectsService.Get c ctx projectID
          = (c, None, Some (EValidationError v)))
  /\ (forall req,
        req = None
        \/ (exists r, req = Some r /\ CreateMemoryRequest.Content r = "") ->
        exists v,
          MemoryService.Create c ctx req
          = (c, req, None, Some (EValidationError v)))
  /\ (forall req,
        req = None
        \/ (exists r, req = Some r /\ SearchMemoryRequest.Query r = "") ->
        exists v,
          MemoryService.Search c ctx req
          = (c, req, None, Some (EValidationError v)))
  /\ (forall req,
        req = None
        \/ (exists r, req = Some r
                      /\ (LoginRequest.Username r = ""
                          \/ LoginRequest.Password r = "")) ->
        exists v,
          AuthService.Login c ctx req
          = (c, None, Some (EValidationError v)))
  /\ (forall texts model normalize,
        texts = [] \/ (100 < length texts)%nat ->
        exists v,
          EmbeddingsService.Generate c ctx texts model normalize
          = (c, None, Some (EValidationError v))).
Proof.
  repeat split.
  - intros projectID req Hbad. unfold VectorsService.Upsert.
    case_decide; [eexists; reflexivity |].
    destruct Hbad as [?|[->|(r & -> & Hv)]];
      [contradiction | eexists; reflexivity |].
    rewrite Hv. simpl. eexists; reflexivity.
  - intros projectID req Hbad. unfold VectorsService.Search.
    case_decide; [eexists; reflexivity |].
    destruct Hbad as [?|[->|(r & -> & Hv)]];
      [contradiction | eexists; reflexivity |].
    rewrite Hv. simpl. eexists; reflexivity.
  - intros req [->|(r & -> & Hn)]; simpl; [eexists; reflexivity |].
    rewrite decide_True by exact Hn. eexists; reflexivity.
  - intros projectID ->. eexists; reflexivity.
  - intros req [->|(r & -> & Hn)]; simpl; [eexists; reflexivity |].
    rewrite decide_True by exact Hn. eexists; reflexivity.
  - intros req [->|(r & -> & Hn)]; simpl; [eexists; reflexivity |].
    rewrite decide_True by exact Hn. eexists; reflexivity.
  - intros req [->|(r & -> & Hn)]; simpl; [eexists; reflexivity |].
    case_decide; [eexists; reflexivity |].
    destruct Hn as [?|Hp]; [contradiction |].
    rewrite decide_True by exact Hp. eexists; reflexivity.
  - intros texts model normalize Hbad. unfold EmbeddingsService.Generate.
    case_decide; [eexists; reflexivity |].
    destruct Hbad as [->|Hlen]; [contradiction |].
    rewrite decide_True by lia. eexists; reflexivity.
Qed.
End WithTransports.
End ServiceProperties.

Section SearchDefaults.
Context `{P : Platform} `{TVectorSearch : !Transport VectorSearchResponse.t}
        `{TSearchMemory : !Transport SearchMemoryResponse.t}.

(** C9 (as amended).  A search that passes its pre-flight checks writes
    its default into the caller's request struct and sends the struct so
    updated: [MemoryService.Search] stores 10 over a [Limit] of zero and
    [VectorsService.Search] stores 5 over a [TopK] of zero or less, and
    every request put on the wire carries the updated struct.  Every
    other field stays as the caller set it, whatever the outcome, and a
    search that fails a pre-flight check leaves the whole struct as it
    was. *)
Theorem search_defaults_in_place (c : Client) (ctx : Context) :
  (forall r,
      exists r' sent,
        (MemoryService.Search c ctx (Some r)).1.1.2 = Some r'
        /\ (SearchMemoryRequest.Query r' = SearchMemoryRequest.Query r
            /\ SearchMemoryRequest.Tags r' = SearchMemoryRequest.Tags r
            /\ SearchMemoryRequest.Priority r' = SearchMemoryRequest.Priority r
            /\ SearchMemoryRequest.Semantic r' = SearchMemoryRequest.Semantic r)
        /\ wire (MemoryService.Search c ctx (Some r)).1.1.1 = wire c ++ sent
        /\ Forall (fun rq => rq_Body rq = Some (BodySearchMemory r')) sent
        /\ (SearchMemoryRequest.Query r <> "" ->
            SearchMemoryRequest.Limit r'
            = (if decide (SearchMemoryRequest.Limit r = 0)
               then 10 else SearchMemoryRequest.Limit r))
        /\ (SearchMemoryRequest.Query r = "" -> r' = r))
  /\ (forall projectID r,
        exists r' sent,
          (VectorsService.Search c ctx projectID (Some r)).1.1.2 = Some r'
          /\ (VectorSearchRequest.Vector r' = VectorSearchRequest.Vector r
              /\ VectorSearchRequest.Namespace r'
                 = VectorSearchRequest.Namespace r
              /\ VectorSearchRequest.Filter r' = VectorSearchRequest.Filter r
              /\ VectorSearchRequest.IncludeMetadata r'
                 = VectorSearchRequest.IncludeMetadata r
              /\ VectorSearchRequest.IncludeValues r'
                 = VectorSearchRequest.IncludeValues r)
          /\ wire (VectorsService.Search c ctx projectID (Some r)).1.1.1
             = wire c ++ sent
          /\ Forall (fun rq => rq_Body rq = Some (BodyVectorSearch r')) sent
          /\ (projectID <> "" ->
              VectorSearchRequest.Vector r <> [] ->
              VectorSearchRequest.TopK r'
              = (if decide (VectorSearchRequest.TopK r <= 0)
                 then 5 else VectorSearchRequest.TopK r))
          /\ (projectID = "" \/ VectorSearchRequest.Vector r = [] -> r' = r)).
Proof.
  split.
  - intros r. unfold MemoryService.Search.
    destruct (decide (SearchMemoryRequest.Query r = "")) as [Hq|Hq].
    { exists r, []. simpl. rewrite app_nil_r.
      split; [reflexivity |]. split; [repeat split |].
      split; [reflexivity |]. split; [constructor |].
      split; [contradiction | reflexivity]. }
    set (r' := if decide (SearchMemoryRequest.Limit r = 0)
               then SearchMemoryRequest.set_Limit 10 r else r).
    destruct (makeRequest_wire c ctx "POST" "/api/v1/memory/search"
                (Some (BodySearchMemory r'))
                (Some SearchMemoryResponse.zero)) as (sent & Hw & Hall).
    exists r', sent.
    destruct (makeRequest _ _ _ _ _ _) as [[c1 r1] e1]. simpl in Hw.
    assert (Hfields :
              SearchMemoryRequest.Limit r'
              = (if decide (SearchMemoryRequest.Limit r = 0)
                 then 10 else SearchMemoryRequest.Limit r)
              /\ SearchMemoryRequest.Query r' = SearchMemoryRequest.Query r
              /\ SearchMemoryRequest.Tags r' = SearchMemoryRequest.Tags r
              /\ SearchMemoryRequest.Priority r'
                 = SearchMemoryRequest.Priority r
              /\ SearchMemoryRequest.Semantic r'
                 = SearchMemoryRequest.Semantic r).
    { subst r'. case_decide; simpl; repeat split. }
    destruct Hfields as (Hl & Hf).
    assert (Hbody : Forall (fun rq => rq_Body rq
                                      = Some (BodySearchMemory r')) sent).
    { eapply Forall_impl; [exact Hall |]. intros rq [_ Hb]. exact Hb. }
    destruct e1; simpl;
      (split; [reflexivity |]); (split; [exact Hf |]);
      (split; [exact Hw |]); (split; [exact Hbody |]);
      (split; [intros _; exact Hl | contradiction]).
  - intros projectID r. unfold VectorsService.Search.
    destruct (decide (projectID = "")) as [Hp|Hp].
    { exists r, []. simpl. rewrite app_nil_r.
      split; [reflexivity |]. split; [repeat split |].
      split; [reflexivity |]. split; [constructor |].
      split; [contradiction | reflexivity]. }
    destruct (decide (length (VectorSearchRequest.Vector r) = 0%nat))
      as [Hv|Hv].
    { exists r, []. simpl. rewrite app_nil_r.
      split; [reflexivity |]. split; [repeat split |].
      split; [reflexivity |]. split; [constructor |].
      split; [| reflexivity].
      intros _ Hne. destruct (VectorSearchRequest.Vector r);
        [contradiction | discriminate]. }
    set (r' := if VectorSearchRequest.TopK r <=? 0
               then VectorSearchRequest.set_TopK 5 r else r).
    destruct (makeRequest_wire c ctx "POST"
                ("/api/v1/zerodb/projects/" +:+ projectID +:+ "/vectors/search")
                (Some (BodyVectorSearch r'))
                (Some VectorSearchResponse.zero)) as (sent & Hw & Hall).
    exists r', sent.
    destruct (makeRequest _ _ _ _ _ _) as [[c1 r1] e1]. simpl in Hw.
    assert (Hfields :
              VectorSearchRequest.TopK r'
              = (if decide (VectorSearchRequest.TopK r <= 0)
                 then 5 else VectorSearchRequest.TopK r)
              /\ VectorSearchRequest.Vector r' = VectorSearchRequest.Vector r
              /\ VectorSearchRequest.Namespace r'
                 = VectorSearchRequest.Namespace r
              /\ VectorSearchRequest.Filter r' = VectorSearchRequest.Filter r
              /\ VectorSearchRequest.IncludeMetadata r'
                 = VectorSearchRequest.IncludeMetadata r
              /\ VectorSearchRequest.IncludeValues r'
                 = VectorSearchRequest.IncludeValues r).
    { subst r'.
      destruct (Z.leb_spec (VectorSearchRequest.TopK r) 0);
        case_decide; try lia; simpl; repeat split. }
    destruct Hfields as (Hl & Hf).
    assert (Hbody : Forall (fun rq => rq_Body rq
                                      = Some (BodyVectorSearch r')) sent).
    { eapply Forall_impl; [exact Hall |]. intros rq [_ Hb]. exact Hb. }
    assert (Hrej : projectID = "" \/ VectorSearchRequest.Vector r = []
                   -> r' = r).
    { intros [He|He]; [contradiction |]. rewrite He in Hv. contradiction. }
    destruct e1; simpl;
      (split; [reflexivity |]); (split; [exact Hf |]);
      (split; [exact Hw |]); (split; [exact Hbody |]);
      (split; [intros _ _; exact Hl | exact Hrej]).
Qed.
End SearchDefaults.

(** ** Token helpers *)

Section TokenProperties.
Context `{P : Platform} `{J : JWT}.

(** C8.  For a token that parses: without an expiry claim
    [IsTokenExpired] returns false and no error, and with an expiry
    claim before the current instant it returns true and no error.  For
    a token that does not parse, [IsTokenExpired] and
    [GetTokenExpirationTime] both return the parse error. *)
Theorem token_expiry_helpers (tokenString : string) :
  (forall claims,
      ParseToken tokenString = inl claims ->
      TokenClaims.ExpiresAt claims = None ->
      IsTokenExpired tokenString = (false, None))
  /\ (forall claims exp,
        ParseToken tokenString = inl claims ->
        TokenClaims.ExpiresAt claims = Some exp ->
        exp < time_Now ->
        IsTokenExpired tokenString = (true, None))
  /\ (forall err,
        ParseToken tokenString = inr err ->
        (IsTokenExpired tokenString).2 = Some err
        /\ GetTokenExpirationTime tokenString = (None, Some err)).
Proof.
  unfold IsTokenExpired, GetTokenExpirationTime.
  split; [| split].
  - intros claims -> ->. reflexivity.
  - intros claims exp -> -> Hpast. unfold Time_Before.
    rewrite (proj2 (Z.ltb_lt _ _) Hpast). reflexivity.
  - intros err ->. split; reflexivity.
Qed.

(** A token is rejected by [ParseToken] exactly when the JWT parser
    rejects it or hands back claims of another type. *)
Lemma ParseToken_error (tokenString : string) (err : error) :
  ParseToken tokenString = inr err
  <-> (exists e, jwt_ParseUnverified tokenString = inr e
                 /\ err = wrapError "failed to parse token: " e)
      \/ (exists m, jwt_ParseUnverified tokenString = inl (mapClaims m)
                    /\ err = errorString "invalid token claims").
Proof.
  unfold ParseToken.
  destruct (jwt_ParseUnverified tokenString) as [[cl|m]|e]; split.
  - discriminate.
  - intros [(e & He & _)|(m & Hm & _)]; discriminate.
  - intros [= <-]. right. eauto.
  - intros [(e & He & _)|(m' & Hm & ->)]; [discriminate | reflexivity].
  - intros [= <-]. left. eauto.
  - intros [(e' & [= <-] & ->)|(m & Hm & _)]; [reflexivity | discriminate].
Qed.
End TokenProperties.

(** ** The services and helpers on the reference platform *)

Lemma preflight_failure_is_local_witness :
  exists v,
    VectorsService.Upsert (P := refPlatform) (T := always 200)
      refClient Background "proj_123" (Some (UpsertVectorsRequest.mk [] ""))
    = (refClient, None, Some (EValidationError v)).
Proof.
  apply (proj1 (preflight_failure_is_local (P := refPlatform)
                  (TProject := always 200) (TVectorSearch := always 200)
                  (TUpsert := always 200) (TMemoryItem := always 200)
                  (TSearchMemory := always 200) (TToken := always 200)
                  (TGenerate := always 200) refClient Background)).
  right. right. eexists. split; reflexivity.
Defined.

(** C6, the claim as stated fails.  [GetTokenExpirationTime] is a public
    operation with a (result, error) pair, and for a token that parses
    and carries no expiry claim it returns nil for both. *)
Lemma expiration_time_of_unbounded_token :
  ParseToken (J := refJWT) "h.noexp.s" = inl (refClaims None)
  /\ GetTokenExpirationTime (J := refJWT) "h.noexp.s" = (None, None)
  /\ ~ exactlyOne (GetTokenExpirationTime (J := refJWT) "h.noexp.s").1
                  (GetTokenExpirationTime (J := refJWT) "h.noexp.s").2.
Proof.
  split; [reflexivity |]. split; [reflexivity |].
  intros [[[x Hx] _]|[_ [x Hx]]]; discriminate.
Qed.

Lemma search_defaults_in_place_witness :
  exists r',
    (MemoryService.Search (P := refPlatform) (T := always 200)
       refClient Background
       (Some (SearchMemoryRequest.mk "deploy notes" 0 ["ops"] "high" true))).1.1.2
    = Some r'
    /\ SearchMemoryRequest.Limit r' = 10.
Proof.
  destruct (proj1 (search_defaults_in_place (P := refPlatform)
                     (TVectorSearch := always 200)
                     (TSearchMemory := always 200) refClient Background)
                  (SearchMemoryRequest.mk "deploy notes" 0 ["ops"] "high" true))
    as (r' & sent & Hr & _ & _ & _ & Hlimit & _).
  exists r'. split; [exact Hr |].
  apply Hlimit. discriminate.
Defined.

(** The call of the witness, evaluated: the caller's struct comes back
    with [Limit] 10 and that struct is what was sent. *)
Example memory_search_sends_updated_struct :
  let r := SearchMemoryRequest.mk "deploy notes" 0 ["ops"] "high" true in
  let r' := SearchMemoryRequest.mk "deploy notes" 10 ["ops"] "high" true in
  let out := MemoryService.Search (P := refPlatform) (T := always 200)
               refClient Background (Some r) in
  out.1.1.2 = Some r'
  /\ wire out.1.1.1
     = [{| rq_Verb := POST; rq_Path := "/api/v1/memory/search";
           rq_Body := Some (BodySearchMemory r') |}].
Proof. split; vm_compute; reflexivity. Qed.

Lemma token_expiry_helpers_witness :
  IsTokenExpired (P := refPlatform) (J := refJWT) "h.noexp.s" = (false, None)
  /\ IsTokenExpired (P := refPlatform) (J := refJWT) "h.exp500.s" = (true, None)
  /\ (IsTokenExpired (P := refPlatform) (J := refJWT) "invalid_token").2
     = Some (wrapError "failed to parse token: "
                       (errorString "token is malformed"))
  /\ GetTokenExpirationTime (J := refJWT) "invalid_token"
     = (None, Some (wrapError "failed to parse token: "
                              (errorString "token is malformed"))).
Proof.
  split; [| split].
  - apply (proj1 (token_expiry_helpers (P := refPlatform) (J := refJWT)
                    "h.noexp.s") (refClaims None)); reflexivity.
  - apply (proj1 (proj2 (token_expiry_helpers (P := refPlatform) (J := refJWT)
                           "h.exp500.s")) (refClaims (Some 500)) 500);
      [reflexivity | reflexivity | vm_compute; reflexivity].
  - apply (proj2 (proj2 (token_expiry_helpers (P := refPlatform) (J := refJWT)
                           "invalid_token"))).
    reflexivity.
Defined.

(** * Further properties *)

(** ** Error classification (errors.go) *)

(** X1.  An authentication error (401 or 403) is a client error, is not
    a server error and is never retryable. *)
Theorem authentication_error_is_final (e : APIError.t) :
  IsAuthenticationError e = true ->
  IsClientError e = true /\ IsServerError e = false /\ IsRetryable e = false.
Proof.
  unfold IsRetryable, IsAuthenticationError, IsClientError, IsServerError,
    IsRateLimitError, StatusUnauthorized, StatusForbidden,
    StatusTooManyRequests.
  intros [H|H]%orb_true_iff; apply Z.eqb_eq in H; rewrite H;
    repeat split; reflexivity.
Qed.

Lemma authentication_error_is_final_witness :
  IsClientError (NewAPIError 401 "invalid key" "UNAUTHORIZED") = true
  /\ IsServerError (NewAPIError 401 "invalid key" "UNAUTHORIZED") = false
  /\ IsRetryable (NewAPIError 401 "invalid key" "UNAUTHORIZED") = false.
Proof.
  apply (authentication_error_is_final
           (NewAPIError 401 "invalid key" "UNAUTHORIZED")).
  reflexivity.
Defined.

(** X2.  No error is both a client and a server error; every server
    error is retryable; and among the client errors the retryable ones
    are exactly the rate-limit errors (429). *)
Theorem error_classes (e : APIError.t) :
  IsClientError e && IsServerError e = false
  /\ IsServerError e && negb (IsRetryable e) = false
  /\ IsClientError e && IsRetryable e = IsRateLimitError e.
Proof.
  unfold IsRetryable, IsClientError, IsServerError, IsRateLimitError,
    StatusTooManyRequests.
  destruct (Z.leb_spec 400 (APIError.StatusCode e));
    destruct (Z.ltb_spec (APIError.StatusCode e) 500);
    destruct (Z.leb_spec 500 (APIError.StatusCode e));
    destruct (Z.ltb_spec (APIError.StatusCode e) 600);
    destruct (Z.eqb_spec (APIError.StatusCode e) 429);
    simpl; repeat split; lia.
Qed.

(** ** The dispatcher (client.go) *)

Section DispatcherFurther.
Context `{P : Platform} {R : Type} `{T : !Transport R}.

(** The errors [makeRequest] can return: a wrapping error, a plain
    error, or an [APIError] whose status is 400 or more. *)
Lemma makeRequest_error_shape c ctx method path body (result : option R) :
  match (makeRequest c ctx method path body result).2 with
  | None => True
  | Some e =>
      (exists prefix cause, e = wrapError prefix cause)
      \/ (exists s, e = errorString s)
      \/ (exists a, e = EAPIError a /\ 400 <= APIError.StatusCode a)
  end.
Proof.
  unfold makeRequest.
  destruct (Limiter_Wait ctx (rateLimiter c)) as [lim [werr|]];
    [simpl; eauto |].
  destruct (verbOf (strings_ToUpper method)) as [verb|];
    [| simpl; eauto].
  destruct (restyExecute _ _ _ _ _) as [[w sink] ex].
  destruct (ex_err ex); [simpl; eauto |].
  destruct (Z.leb_spec 400 (StatusCode (ex_resp ex))); [| exact I].
  case_decide; simpl; right; right; eexists; (split; [reflexivity |]);
    simpl; assumption.
Qed.

(** What one call puts on the wire: copies of a single request with the
    given path and body, at most one more than the retry count. *)
Lemma makeRequest_sends c ctx method path body (result : option R) :
  exists (k : nat) (verb : Verb),
    (k <= S (Z.to_nat (Resty.RetryCount (httpClient c))))%nat
    /\ wire (makeRequest c ctx method path body result).1.1
       = wire c ++ replicate k {| rq_Verb := verb; rq_Path := path;
                                  rq_Body := body |}.
Proof.
  unfold makeRequest.
  destruct (Limiter_Wait ctx (rateLimiter c)) as [lim [werr|]].
  { exists 0%nat, GET. simpl. rewrite app_nil_r. split; [lia | reflexivity]. }
  destruct (verbOf (strings_ToUpper method)) as [verb|].
  2: { exists 0%nat, GET. simpl. rewrite app_nil_r.
       split; [lia | reflexivity]. }
  destruct (restyExecute_wire
              (Z.to_nat (Resty.RetryCount (httpClient (set_rateLimiter lim c))))
              (wire (set_rateLimiter lim c))
              {| rq_Verb := verb; rq_Path := path; rq_Body := body |}
              result APIError.zero) as (k & Hk & Hw).
  destruct (restyExecute _ _ _ _ _) as [[w sink] ex]. simpl in Hw. subst w.
  exists k, verb. split; [simpl in Hk; lia |].
  destruct (ex_err ex); [reflexivity |].
  destruct (400 <=? StatusCode (ex_resp ex)); [| reflexivity].
  case_decide; reflexivity.
Qed.

(** The parts of the client a call does not touch, and the limiter. *)
Lemma makeRequest_keeps_settings c ctx method path body (result : option R) :
  let c' := (makeRequest c ctx method path body result).1.1 in
  httpClient c' = httpClient c
  /\ config c' = config c
  /\ tracer c' = tracer c
  /\ rateLimiter c' = (Limiter_Wait ctx (rateLimiter c)).1.
Proof.
  unfold makeRequest.
  destruct (Limiter_Wait ctx (rateLimiter c)) as [lim [werr|]];
    [simpl; repeat split |].
  destruct (verbOf (strings_ToUpper method)) as [verb|];
    [| simpl; repeat split].
  destruct (restyExecute _ _ _ _ _) as [[w sink] ex].
  destruct (ex_err ex); [simpl; repeat split |].
  destruct (400 <=? StatusCode (ex_resp ex)); [| simpl; repeat split].
  case_decide; simpl; repeat split.
Qed.

(** X3.  A call of [makeRequest] leaves the client's HTTP settings,
    configuration and tracer alone, and asks the limiter exactly once:
    the limiter afterwards is the one a single [Wait] leaves, whatever
    the outcome of the call; and a second call starts from the limiter
    and the wire log the first one left. *)
Theorem makeRequest_frame c ctx method path body (result : option R)
    method2 path2 body2 (result2 : option R) :
  let c1 := (makeRequest c ctx method path body result).1.1 in
  let c2 := (makeRequest c1 ctx method2 path2 body2 result2).1.1 in
  (httpClient c1 = httpClient c
   /\ config c1 = config c
   /\ tracer c1 = tracer c
   /\ rateLimiter c1 = (Limiter_Wait ctx (rateLimiter c)).1)
  /\ (httpClient c2 = httpClient c
      /\ config c2 = config c
      /\ tracer c2 = tracer c
      /\ rateLimiter c2
         = (Limiter_Wait ctx (Limiter_Wait ctx (rateLimiter c)).1).1
      /\ exists sent1 sent2,
          wire c1 = wire c ++ sent1 /\ wire c2 = wire c ++ sent1 ++ sent2).
Proof.
  intros c1 c2.
  destruct (makeRequest_keeps_settings c ctx method path body result)
    as (Hh & Hc & Ht & Hl).
  destruct (makeRequest_keeps_settings c1 ctx method2 path2 body2 result2)
    as (Hh2 & Hc2 & Ht2 & Hl2).
  fold c1 in Hh, Hc, Ht, Hl. fold c2 in Hh2, Hc2, Ht2, Hl2.
  split; [repeat split; assumption |].
  split; [congruence |]. split; [congruence |]. split; [congruence |].
  split; [rewrite Hl2, Hl; reflexivity |].
  destruct (makeRequest_sends c ctx method path body result)
    as (k1 & v1 & _ & Hw1).
  destruct (makeRequest_sends c1 ctx method2 path2 body2 result2)
    as (k2 & v2 & _ & Hw2).
  fold c1 in Hw1. fold c2 in Hw2.
  eexists _, _. split; [exact Hw1 |].
  rewrite Hw2, Hw1, <- app_assoc. reflexivity.
Qed.

(** X4.  One call never puts more than retry-count-plus-one requests on
    the wire, never removes or reorders what was sent before, and all
    the requests it sends are the same request, with the path and body
    it was given. *)
Theorem makeRequest_attempt_bound c ctx method path body (result : option R) :
  exists sent,
    wire (makeRequest c ctx method path body result).1.1 = wire c ++ sent
    /\ (length sent <= S (Z.to_nat (Resty.RetryCount (httpClient c))))%nat
    /\ (exists verb,
          Forall (fun rq => rq = {| rq_Verb := verb; rq_Path := path;
                                    rq_Body := body |}) sent).
Proof.
  destruct (makeRequest_sends c ctx method path body result)
    as (k & verb & Hk & Hw).
  exists (replicate k {| rq_Verb := verb; rq_Path := path; rq_Body := body |}).
  split; [exact Hw |]. split; [rewrite length_replicate; exact Hk |].
  exists verb. apply Forall_forall. intros rq [-> _]%elem_of_replicate.
  reflexivity.
Qed.

(** X5.  When the limiter refuses (the context was done, or the wait
    would not fit), [makeRequest] sends nothing, leaves the result sink
    as it was, and returns an error that wraps the limiter's error under
    the text "rate limit wait failed: ". *)
Theorem makeRequest_wait_failure c ctx method path body (result : option R)
    lim werr :
  Limiter_Wait ctx (rateLimiter c) = (lim, Some werr) ->
  let out := makeRequest c ctx method path body result in
  wire out.1.1 = wire c
  /\ out.1.2 = result
  /\ exists err,
      out.2 = Some err
      /\ Unwrap err = Some werr
      /\ Error err = "rate limit wait failed: " +:+ Error werr.
Proof.
  intros Hwait. unfold makeRequest. rewrite Hwait. simpl.
  repeat split. eexists. repeat split.
Qed.

(** X6.  An error returned by [makeRequest] is never a
    [ValidationError], a [NetworkError] or a [ConfigError], and when it
    is an [APIError] its status code is 400 or more. *)
Theorem makeRequest_error_kinds c ctx method path body (result : option R) e :
  (makeRequest c ctx method path body result).2 = Some e ->
  isValidationError e = false
  /\ isNetworkError e = false
  /\ isConfigError e = false
  /\ forall a, e = EAPIError a -> 400 <= APIError.StatusCode a.
Proof.
  intros He.
  pose proof (makeRequest_error_shape c ctx method path body result) as Hs.
  rewrite He in Hs.
  destruct Hs as [(p & cause & ->)|[(s & ->)|(a & -> & Ha)]];
    repeat split; try discriminate.
  intros a' [= <-]. exact Ha.
Qed.

(** When every exchange meets the retry condition, resty sends until the
    retries are used up. *)
Lemma restyExecute_exhausts retries rq :
  (forall w (s : option R) a,
      retryCondition (ex_resp (roundTrip w rq s a))
                     (ex_err (roundTrip w rq s a)) = true) ->
  forall w (s : option R) a,
    (restyExecute retries w rq s a).1.1 = w ++ replicate (S retries) rq.
Proof.
  intros Hall. induction retries as [|n IH]; intros w s a; simpl.
  - reflexivity.
  - rewrite Hall, IH. rewrite <- app_assoc. reflexivity.
Qed.

(** X7.  On a client whose retry count is zero or more, with a context
    that is live, against a remote end whose every answer meets the
    retry condition (a persistent 5xx, 429 or transport failure), a call
    sends exactly retry-count-plus-one requests. *)
Theorem makeRequest_exhausts_retries
    c ctx method path body (result : option R) lim verb :
  0 <= Resty.RetryCount (httpClient c) ->
  ctx_Err ctx = None ->
  Limiter_Wait ctx (rateLimiter c) = (lim, None) ->
  verbOf (strings_ToUpper method) = Some verb ->
  let rq := {| rq_Verb := verb; rq_Path := path; rq_Body := body |} in
  (forall w (s : option R) a,
      retryCondition (ex_resp (roundTrip w rq s a))
                     (ex_err (roundTrip w rq s a)) = true) ->
  exists n : nat,
    Z.of_nat n = Resty.RetryCount (httpClient c) + 1
    /\ wire (makeRequest c ctx method path body result).1.1
       = wire c ++ replicate n rq.
Proof.
  intros Hcount Hlive Hwait Hverb rq Hall.
  exists (S (Z.to_nat (Resty.RetryCount (httpClient c)))).
  split; [lia |].
  pose proof (restyExecute_exhausts
                (Z.to_nat (Resty.RetryCount (httpClient c))) rq Hall
                (wire c) result APIError.zero) as Hw.
  unfold makeRequest. rewrite Hwait, Hverb. simpl. fold rq.
  destruct (restyExecute _ _ _ _ _) as [[w sink] ex]. simpl in Hw. subst w.
  destruct (ex_err ex); [reflexivity |].
  destruct (400 <=? StatusCode (ex_resp ex)); [| reflexivity].
  case_decide; reflexivity.
Qed.

(** X8.  On a client whose retry count is zero or more, when the first
    answer comes back from resty without an error and with a status
    below 500 other than 429, the call sends exactly one request,
    however many retries are allowed. *)
Theorem makeRequest_single_attempt
    c ctx method path body (result : option R) lim verb :
  0 <= Resty.RetryCount (httpClient c) ->
  Limiter_Wait ctx (rateLimiter c) = (lim, None) ->
  verbOf (strings_ToUpper method) = Some verb ->
  let rq := {| rq_Verb := verb; rq_Path := path; rq_Body := body |} in
  let ex := roundTrip (wire c) rq result APIError.zero in
  ex_err ex = None ->
  StatusCode (ex_resp ex) < 500 ->
  StatusCode (ex_resp ex) <> 429 ->
  wire (makeRequest c ctx method path body result).1.1 = wire c ++ [rq].
Proof.
  intros Hcount Hwait Hverb rq ex Herr Hlt Hne.
  assert (Hno : retryCondition (ex_resp ex) (ex_err ex) = false).
  { rewrite Herr. simpl. apply orb_false_iff.
    split; [apply Z.leb_gt; exact Hlt | apply Z.eqb_neq; exact Hne]. }
  pose proof (restyExecute_stops
                (Z.to_nat (Resty.RetryCount (httpClient c))) (wire c) rq
                result APIError.zero Hno) as Hstop.
  unfold ex, rq in *. clear ex rq.
  unfold makeRequest. rewrite Hwait, Hverb.
  cbn [httpClient wire set_rateLimiter].
  destruct (restyExecute _ _ _ _ _) as [[w sink] ex'].
  injection Hstop as Hw Hs He. subst w sink ex'.
  unfold roundTrip in *. rewrite Herr.
  match goal with |- context [400 <=? ?x] => destruct (400 <=? x) end;
    [| reflexivity].
  case_decide; reflexivity.
Qed.
End DispatcherFurther.

Lemma makeRequest_wait_failure_witness :
  let out := makeRequest (P := refPlatform) (T := always 200)
               refClient Canceled "GET" "/health" None
               (Some HealthResponse.zero) in
  wire out.1.1 = []
  /\ out.1.2 = Some HealthResponse.zero
  /\ exists err,
      out.2 = Some err
      /\ Unwrap err = Some (errorString "context canceled")
      /\ Error err
         = "rate limit wait failed: " +:+ Error (errorString "context canceled").
Proof.
  apply (makeRequest_wait_failure (P := refPlatform) (T := always 200)
           refClient Canceled "GET" "/health" None (Some HealthResponse.zero)
           (Bucket.mk 100 100 100) (errorString "context canceled")).
  reflexivity.
Defined.

Lemma makeRequest_error_kinds_witness :
  let e := EAPIError (APIError.mk 404 "API request failed with status 404"
                                  "" ∅ "" "") in
  isValidationError e = false
  /\ isNetworkError e = false
  /\ isConfigError e = false
  /\ forall a, e = EAPIError a -> 400 <= APIError.StatusCode a.
Proof.
  apply (makeRequest_error_kinds (P := refPlatform) (T := always 404)
           refClient Background "GET" "/health" None (Some HealthResponse.zero)).
  vm_compute. reflexivity.
Defined.

Lemma makeRequest_exhausts_retries_witness :
  exists n : nat,
    Z.of_nat n = 3 + 1
    /\ wire (makeRequest (P := refPlatform) (T := always 503)
               refClient Background "GET" "/health" None
               (Some HealthResponse.zero)).1.1
       = [] ++ replicate n getHealth.
Proof.
  apply (makeRequest_exhausts_retries (P := refPlatform) (T := always 503)
           refClient Background "GET" "/health" None (Some HealthResponse.zero)
           (Bucket.mk 100 100 99) GET).
  - simpl. lia.
  - reflexivity.
  - reflexivity.
  - reflexivity.
  - intros w s a. unfold roundTrip, always, scripted.
    destruct (length w); reflexivity.
Defined.

Lemma makeRequest_single_attempt_witness :
  wire (makeRequest (P := refPlatform) (T := always 404)
          refClient Background "GET" "/health" None
          (Some HealthResponse.zero)).1.1
  = [] ++ [getHealth].
Proof.
  apply (makeRequest_single_attempt (P := refPlatform) (T := always 404)
           refClient Background "GET" "/health" None (Some HealthResponse.zero)
           (Bucket.mk 100 100 99) GET).
  - simpl. lia.
  - reflexivity.
  - reflexivity.
  - reflexivity.
  - vm_compute. reflexivity.
  - vm_compute. discriminate.
Defined.

(** ** Construction (client.go) *)

Section ConstructionFurther.
Context `{P : Platform}.

(** The client [NewClient] returns, spelled out. *)
Lemma NewClient_success (cfg : Config.t) (c : Client) :
  (NewClient (Some cfg)).1.2 = Some c ->
  Config.APIKey cfg <> ""
  /\ url_Parse (effectiveBaseURL cfg) = None
  /\ Resty.BaseURL (httpClient c) = effectiveBaseURL cfg
  /\ Resty.Timeout (httpClient c)
     = (if decide (Config.Timeout cfg = 0) then DefaultTimeout
        else Config.Timeout cfg)
  /\ Resty.Headers (httpClient c)
     = (let headers : gmap string string :=
          <["Accept" := "application/json"]>
            (<["Content-Type" := "application/json"]>
               (<["User-Agent" := UserAgent]> ∅)) in
        let headers :=
          if decide (Config.APISecret cfg ≠ "")
          then <["Authorization" :=
                   "Bearer " +:+ Config.APIKey cfg +:+ ":"
                     +:+ Config.APISecret cfg]> headers
          else <["Authorization" := "Bearer " +:+ Config.APIKey cfg]> headers in
        if decide (Config.OrganizationID cfg ≠ "")
        then <["X-Organization-ID" := Config.OrganizationID cfg]> headers
        else headers)
  /\ Resty.RetryCount (httpClient c)
     = RetryConfig.MaxRetries (default defaultRetryConfig (Config.RetryConfig_ cfg))
  /\ Resty.RetryWaitTime (httpClient c)
     = RetryConfig.InitialDelay (default defaultRetryConfig (Config.RetryConfig_ cfg))
  /\ Resty.RetryMaxWaitTime (httpClient c)
     = RetryConfig.MaxDelay (default defaultRetryConfig (Config.RetryConfig_ cfg))
  /\ Resty.Debug (httpClient c) = Config.Debug cfg
  /\ rateLimiter c
     = (let n := if decide (Config.RateLimit cfg = 0) then DefaultRateLimit
                 else Config.RateLimit cfg in
        rate_NewLimiter n n)
  /\ wire c = [].
Proof.
  unfold NewClient, effectiveBaseURL.
  destruct (decide (Config.APIKey cfg = "")) as [Hkey|Hkey]; [discriminate |].
  cbv zeta.
  destruct (decide (Config.BaseURL cfg = ""));
    cbn [Config.Timeout Config.set_BaseURL];
    destruct (decide (Config.Timeout cfg = 0));
    cbn [Config.RateLimit Config.set_Timeout Config.set_BaseURL];
    destruct (decide (Config.RateLimit cfg = 0));
    cbn [Config.BaseURL Config.set_RateLimit Config.set_Timeout
         Config.set_BaseURL];
    destruct (url_Parse _); cbn [fst snd]; try discriminate;
    intros [= <-]; cbn;
    destruct (Config.RetryConfig_ cfg); cbn; repeat split; assumption.
Qed.

(** X9.  [NewClient] returns either a client and no error or an error
    and no client, and it returns a client exactly when the
    configuration is not nil, its API key is not empty and the base URL
    in effect (the configured one, or the default for an empty one)
    parses. *)
Theorem NewClient_outcome (config : option Config.t) :
  exactlyOne (NewClient config).1.2 (NewClient config).2
  /\ (is_Some (NewClient config).1.2
      <-> exists cfg,
          config = Some cfg
          /\ Config.APIKey cfg <> ""
          /\ url_Parse (effectiveBaseURL cfg) = None).
Proof.
  destruct config as [cfg|].
  2: { split; [right; split; [reflexivity | eauto] |].
       split; [intros [x Hx]; discriminate | intros (cfg & Hc & _); discriminate]. }
  split.
  - unfold NewClient.
    destruct (decide (Config.APIKey cfg = ""));
      [right; split; [reflexivity | eauto] |].
    cbv zeta.
    match goal with
    | |- context [url_Parse ?u] => destruct (url_Parse u)
    end; cbn [fst snd].
    + right. split; [reflexivity | eauto].
    + left. split; [eauto | reflexivity].
  - split.
    + intros [c Hc]. exists cfg.
      destruct (NewClient_success cfg c Hc) as (Hk & Hu & _). auto.
    + intros (cfg' & [= <-] & Hk & Hu). unfold NewClient.
      rewrite decide_False by exact Hk. cbv zeta.
      unfold effectiveBaseURL in Hu.
      destruct (decide (Config.BaseURL cfg = ""));
        cbn [Config.Timeout Config.set_BaseURL];
        destruct (decide (Config.Timeout cfg = 0));
        cbn [Config.RateLimit Config.set_Timeout Config.set_BaseURL];
        destruct (decide (Config.RateLimit cfg = 0));
        cbn [Config.BaseURL Config.set_RateLimit Config.set_Timeout
             Config.set_BaseURL];
        rewrite Hu; cbn [fst snd]; eauto.
Qed.

(** X10.  The client [NewClient] builds sends six headers at most:
    User-Agent, Content-Type and Accept with fixed values; Authorization
    as "Bearer <key>", or "Bearer <key>:<secret>" when a secret is
    configured; X-Organization-ID exactly when an organization is
    configured.  It sets no X-Project-ID header, even when the
    configuration names a project. *)
Theorem NewClient_headers (cfg : Config.t) (c : Client) :
  (NewClient (Some cfg)).1.2 = Some c ->
  let h := Resty.Headers (httpClient c) in
  h !! "User-Agent" = Some "AINative-Go-SDK/1.0.0"
  /\ h !! "Content-Type" = Some "application/json"
  /\ h !! "Accept" = Some "application/json"
  /\ h !! "Authorization"
     = Some (if decide (Config.APISecret cfg = "")
             then "Bearer " +:+ Config.APIKey cfg
             else "Bearer " +:+ Config.APIKey cfg +:+ ":"
                    +:+ Config.APISecret cfg)
  /\ h !! "X-Organization-ID"
     = (if decide (Config.OrganizationID cfg = "") then None
        else Some (Config.OrganizationID cfg))
  /\ h !! "X-Project-ID" = None
  /\ forall key,
      key ∉ ["User-Agent"; "Content-Type"; "Accept"; "Authorization";
             "X-Organization-ID"] ->
      h !! key = None.
Proof.
  intros Hc. destruct (NewClient_success cfg c Hc) as (_ & _ & _ & _ & Hh & _).
  cbv zeta. rewrite Hh. clear Hh Hc.
  assert (Hother : forall key (m : gmap string string) k v,
             key <> k -> <[k := v]> m !! key = m !! key).
  { intros key m k v Hne. apply lookup_insert_ne. congruence. }
  cbv zeta.
  destruct (decide (Config.APISecret cfg = ""));
    destruct (decide (Config.APISecret cfg ≠ "")); try contradiction;
    destruct (decide (Config.OrganizationID cfg = ""));
    destruct (decide (Config.OrganizationID cfg ≠ "")); try contradiction;
    repeat split;
    try (repeat (rewrite Hother by discriminate);
         first [apply lookup_insert_eq | apply lookup_empty]);
    intros key Hkey;
    repeat (rewrite Hother
              by (intros ->; apply Hkey, list_elem_of_In; simpl; tauto));
    apply lookup_empty.
Qed.

(** X11.  The client [NewClient] builds takes its retry count and retry
    waits from the caller's [RetryConfig], or 3 retries between 100 ms
    and 10 s when there is none; its base URL, timeout and debug flag
    from the configuration with the defaults applied; a limiter whose
    rate and burst are both the rate limit in effect; and it has sent
    nothing yet. *)
Theorem NewClient_settings (cfg : Config.t) (c : Client) :
  (NewClient (Some cfg)).1.2 = Some c ->
  Resty.RetryCount (httpClient c)
  = match Config.RetryConfig_ cfg with
    | Some rc => RetryConfig.MaxRetries rc
    | None => 3
    end
  /\ Resty.RetryWaitTime (httpClient c)
     = match Config.RetryConfig_ cfg with
       | Some rc => RetryConfig.InitialDelay rc
       | None => 100 * Millisecond
       end
  /\ Resty.RetryMaxWaitTime (httpClient c)
     = match Config.RetryConfig_ cfg with
       | Some rc => RetryConfig.MaxDelay rc
       | None => 10 * Second
       end
  /\ Resty.BaseURL (httpClient c) = effectiveBaseURL cfg
  /\ Resty.Timeout (httpClient c)
     = (if decide (Config.Timeout cfg = 0) then 30 * Second
        else Config.Timeout cfg)
  /\ Resty.Debug (httpClient c) = Config.Debug cfg
  /\ rateLimiter c
     = (if decide (Config.RateLimit cfg = 0) then rate_NewLimiter 100 100
        else rate_NewLimiter (Config.RateLimit cfg) (Config.RateLimit cfg))
  /\ wire c = [].
Proof.
  intros Hc.
  destruct (NewClient_success cfg c Hc)
    as (_ & _ & Hb & Ht & _ & Hr & Hw & Hm & Hd & Hl & Hwire).
  rewrite Hr, Hw, Hm, Hb, Ht, Hd, Hl, Hwire.
  destruct (Config.RetryConfig_ cfg); simpl;
    destruct (decide (Config.RateLimit cfg = 0)); repeat split.
Qed.

(** X12.  A call of [makeRequest] on a client built by [NewClient] puts
    at most one request more on the wire than the configured
    [MaxRetries] (at most 4 when no retry configuration was given). *)
Theorem NewClient_bounds_attempts {R} `{T : !Transport R}
    (cfg : Config.t) (c : Client) ctx method path body (result : option R) :
  (NewClient (Some cfg)).1.2 = Some c ->
  (length (wire (makeRequest c ctx method path body result).1.1)
   <= S (Z.to_nat match Config.RetryConfig_ cfg with
                  | Some rc => RetryConfig.MaxRetries rc
                  | None => 3
                  end))%nat.
Proof.
  intros Hc.
  destruct (NewClient_success cfg c Hc)
    as (_ & _ & _ & _ & _ & Hr & _ & _ & _ & _ & Hwire).
  destruct (makeRequest_sends c ctx method path body result)
    as (k & verb & Hk & Hw).
  rewrite Hw, Hwire, Hr in *. simpl. rewrite length_replicate.
  destruct (Config.RetryConfig_ cfg); exact Hk.
Qed.
End ConstructionFurther.

Lemma NewClient_outcome_witness :
  is_Some (NewClient (P := refPlatform) (Some (minimalConfig "test-key"))).1.2.
Proof.
  apply (proj2 (NewClient_outcome (P := refPlatform)
                  (Some (minimalConfig "test-key")))).
  exists (minimalConfig "test-key").
  split; [reflexivity |]. split; [discriminate | reflexivity].
Defined.

Lemma NewClient_headers_witness :
  Resty.Headers (httpClient refClient) !! "Authorization"
  = Some "Bearer test-key"
  /\ Resty.Headers (httpClient refClient) !! "X-Organization-ID" = None
  /\ Resty.Headers (httpClient refClient) !! "X-Project-ID" = None.
Proof.
  destruct (NewClient_headers (P := refPlatform) (minimalConfig "test-key")
              refClient)
    as (_ & _ & _ & Hauth & Horg & Hproj & _).
  - vm_compute. reflexivity.
  - split; [exact Hauth |]. split; [exact Horg | exact Hproj].
Defined.

Lemma NewClient_settings_witness :
  Resty.RetryCount (httpClient refClient) = 3
  /\ Resty.BaseURL (httpClient refClient) = "https://api.ainative.studio"
  /\ rateLimiter refClient = Bucket.New 100 100.
Proof.
  destruct (NewClient_settings (P := refPlatform) (minimalConfig "test-key")
              refClient)
    as (Hr & _ & _ & Hb & _ & _ & Hl & _).
  - vm_compute. reflexivity.
  - split; [exact Hr |]. split; [exact Hb | exact Hl].
Defined.

Lemma NewClient_bounds_attempts_witness :
  (length (wire (makeRequest (P := refPlatform) (T := always 503)
                   refClient Background "GET" "/health" None
                   (Some HealthResponse.zero)).1.1) <= 4)%nat.
Proof.
  apply (NewClient_bounds_attempts (P := refPlatform) (T := always 503)
           (minimalConfig "test-key") refClient Background "GET" "/health"
           None (Some HealthResponse.zero)).
  vm_compute. reflexivity.
Defined.

(** ** Project and organization setters (client.go) *)

Section SetterProperties.
Context `{P : Platform}.

(** X13.  After [SetProjectID] the configuration names the new project
    and the X-Project-ID header carries it (an empty ID leaves the header
    in place with an empty value); every other header and setting of
    the HTTP client, every other configuration field, the limiter, the
    tracer and the wire log are as before. *)
Theorem SetProjectID_effect (c : Client) (projectID : string) :
  let c' := SetProjectID c projectID in
  Config.ProjectID (GetConfig c') = projectID
  /\ Resty.Headers (httpClient c') !! "X-Project-ID" = Some projectID
  /\ (forall key, key <> "X-Project-ID" ->
        Resty.Headers (httpClient c') !! key
        = Resty.Headers (httpClient c) !! key)
  /\ Resty_SetHeader "X-Project-ID" projectID (httpClient c) = httpClient c'
  /\ Config_set_ProjectID (Config.ProjectID (config c)) (GetConfig c')
     = config c
  /\ rateLimiter c' = rateLimiter c
  /\ tracer c' = tracer c
  /\ wire c' = wire c.
Proof.
  unfold SetProjectID, GetConfig.
  destruct (decide (projectID ≠ "")) as [Hne|Heq]; simpl.
  - repeat split.
    + apply lookup_insert_eq.
    + intros key Hk. apply lookup_insert_ne. congruence.
    + destruct (config c); reflexivity.
  - assert (projectID = "") as -> by (destruct (decide (projectID = "")); tauto).
    repeat split.
    + apply lookup_insert_eq.
    + intros key Hk. apply lookup_insert_ne. congruence.
    + destruct (config c); reflexivity.
Qed.

(** X14.  After [SetOrganizationID] the configuration names the new
    organization and the X-Organization-ID header carries it, whatever
    [NewClient] had put there; every other header and setting, every
    other configuration field, the limiter, the tracer and the wire log
    are as before. *)
Theorem SetOrganizationID_effect (c : Client) (orgID : string) :
  let c' := SetOrganizationID c orgID in
  Config.OrganizationID (GetConfig c') = orgID
  /\ Resty.Headers (httpClient c') !! "X-Organization-ID" = Some orgID
  /\ (forall key, key <> "X-Organization-ID" ->
        Resty.Headers (httpClient c') !! key
        = Resty.Headers (httpClient c) !! key)
  /\ Resty_SetHeader "X-Organization-ID" orgID (httpClient c) = httpClient c'
  /\ Config_set_OrganizationID (Config.OrganizationID (config c))
                               (GetConfig c')
     = config c
  /\ rateLimiter c' = rateLimiter c
  /\ tracer c' = tracer c
  /\ wire c' = wire c.
Proof.
  unfold SetOrganizationID, GetConfig.
  destruct (decide (orgID ≠ "")) as [Hne|Heq]; simpl.
  - repeat split.
    + apply lookup_insert_eq.
    + intros key Hk. apply lookup_insert_ne. congruence.
    + destruct (config c); reflexivity.
  - assert (orgID = "") as -> by (destruct (decide (orgID = "")); tauto).
    repeat split.
    + apply lookup_insert_eq.
    + intros key Hk. apply lookup_insert_ne. congruence.
    + destruct (config c); reflexivity.
Qed.

(** Both branches of a setter store the ID it was given. *)
Lemma SetProjectID_unfold (c : Client) (projectID : string) :
  SetProjectID c projectID
  = set_httpClient (Resty_SetHeader "X-Project-ID" projectID (httpClient c))
                   (set_config (Config_set_ProjectID projectID (config c)) c).
Proof.
  unfold SetProjectID.
  destruct (decide (projectID ≠ "")) as [Hne|Heq]; [reflexivity |].
  assert (projectID = "") as -> by (destruct (decide (projectID = "")); tauto).
  reflexivity.
Qed.

Lemma SetOrganizationID_unfold (c : Client) (orgID : string) :
  SetOrganizationID c orgID
  = set_httpClient
      (Resty_SetHeader "X-Organization-ID" orgID (httpClient c))
      (set_config (Config_set_OrganizationID orgID (config c)) c).
Proof.
  unfold SetOrganizationID.
  destruct (decide (orgID ≠ "")) as [Hne|Heq]; [reflexivity |].
  assert (orgID = "") as -> by (destruct (decide (orgID = "")); tauto).
  reflexivity.
Qed.

(** X15.  The setters compose as assignments do: setting the project
    twice keeps the last ID, setting the organization twice keeps the
    last ID, and setting a project and an organization gives the same
    client in either order. *)
Theorem setters_compose (c : Client) (a b : string) :
  SetProjectID (SetProjectID c a) b = SetProjectID c b
  /\ SetOrganizationID (SetOrganizationID c a) b = SetOrganizationID c b
  /\ SetProjectID (SetOrganizationID c a) b
     = SetOrganizationID (SetProjectID c b) a.
Proof.
  rewrite !SetProjectID_unfold, !SetOrganizationID_unfold.
  unfold set_httpClient, set_config, Resty_SetHeader,
    Config_set_ProjectID, Config_set_OrganizationID.
  cbn. repeat split; f_equal; f_equal.
  - apply insert_insert_eq.
  - apply insert_insert_eq.
  - apply insert_insert_ne. discriminate.
Qed.
End SetterProperties.

(** ** More on the service methods (zerodb.go, auth.go, embeddings.go) *)

Section ServiceFurther.
Context `{P : Platform}.

Ltac not_validation :=
  match goal with
  | |- context [makeRequest ?c ?ctx ?m ?p ?b ?r] =>
      let Hshape := fresh "Hshape" in
      pose proof (makeRequest_error_shape c ctx m p b r) as Hshape;
      destruct (makeRequest c ctx m p b r) as [[? ?] [?|]]; simpl in *;
      [ destruct Hshape as [(? & ? & ->)|[(? & ->)|(? & -> & _)]] | ];
      try reflexivity; intros; discriminate
  end.

Section WithTransports.
Context `{THealth : !Transport HealthResponse.t}
        `{TProject : !Transport Project.t}
        `{TList : !Transport ListProjectsResponse.t}
        `{TVectorSearch : !Transport VectorSearchResponse.t}
        `{TUpsert : !Transport UpsertVectorsResponse.t}
        `{TMemoryItem : !Transport MemoryItem.t}
        `{TSearchMemory : !Transport SearchMemoryResponse.t}
        `{TToken : !Transport TokenResponse.t}
        `{TGenerate : !Transport GenerateResponse.t}
        `{TNone : !Transport unit}.

(** X16.  A [ValidationError] from a service method means the call never
    left the process: whenever one of these methods returns a
    [ValidationError], the client (limiter, wire log) is as it was.
    [Health], [ProjectsService.List] and [AuthService.Logout] check
    nothing and never return one. *)
Theorem validation_error_means_untouched (c : Client) (ctx : Context) :
  (forall req v,
      (ProjectsService.Create c ctx req).2 = Some (EValidationError v) ->
      (ProjectsService.Create c ctx req).1.1 = c)
  /\ (forall projectID v,
        (ProjectsService.Get c ctx projectID).2 = Some (EValidationError v) ->
        (ProjectsService.Get c ctx projectID).1.1 = c)
  /\ (forall projectID req v,
        (VectorsService.Search c ctx projectID req).2
        = Some (EValidationError v) ->
        (VectorsService.Search c ctx projectID req).1.1.1 = c)
  /\ (forall projectID req v,
        (VectorsService.Upsert c ctx projectID req).2
        = Some (EValidationError v) ->
        (VectorsService.Upsert c ctx projectID req).1.1 = c)
  /\ (forall req v,
        (MemoryService.Create c ctx req).2 = Some (EValidationError v) ->
        (MemoryService.Create c ctx req).1.1.1 = c)
  /\ (forall req v,
        (MemoryService.Search c ctx req).2 = Some (EValidationError v) ->
        (MemoryService.Search c ctx req).1.1.1 = c)
  /\ (forall req v,
        (AuthService.Login c ctx req).2 = Some (EValidationError v) ->
        (AuthService.Login c ctx req).1.1 = c)
  /\ (forall texts model normalize v,
        (EmbeddingsService.Generate c ctx texts model normalize).2
        = Some (EValidationError v) ->
        (EmbeddingsService.Generate c ctx texts model normalize).1.1 = c)
  /\ (forall projectID v,
        (ProjectsService_Activate c ctx projectID).2
        = Some (EValidationError v) ->
        (ProjectsService_Activate c ctx projectID).1 = c)
  /\ (forall projectID v,
        (ProjectsService_Delete c ctx projectID).2
        = Some (EValidationError v) ->
        (ProjectsService_Delete c ctx projectID).1 = c)
  /\ (forall keyID v,
        (AuthService_RevokeAPIKey c ctx keyID).2
        = Some (EValidationError v) ->
        (AuthService_RevokeAPIKey c ctx keyID).1 = c)
  /\ (forall v, (Health c ctx).2 <> Some (EValidationError v))
  /\ (forall req v,
        (ProjectsService_List c ctx req).2 <> Some (EValidationError v))
  /\ (forall v, (AuthService_Logout c ctx).2 <> Some (EValidationError v)).
Proof.
  repeat split.
  - intros [r|] v; simpl; [| reflexivity].
    case_decide; [reflexivity |]. not_validation.
  - intros projectID v. unfold ProjectsService.Get.
    case_decide; [reflexivity |]. not_validation.
  - intros projectID req v. unfold VectorsService.Search.
    case_decide; [reflexivity |].
    destruct req as [r|]; [| reflexivity].
    case_decide; [reflexivity |]. not_validation.
  - intros projectID req v. unfold VectorsService.Upsert.
    case_decide; [reflexivity |].
    destruct req as [r|]; [| reflexivity].
    case_decide; [reflexivity |]. not_validation.
  - intros [r|] v; simpl; [| reflexivity].
    case_decide; [reflexivity |]. not_validation.
  - intros [r|] v; simpl; [| reflexivity].
    case_decide; [reflexivity |]. not_validation.
  - intros [r|] v; simpl; [| reflexivity].
    case_decide; [reflexivity |].
    case_decide; [reflexivity |]. not_validation.
  - intros texts model normalize v. unfold EmbeddingsService.Generate.
    case_decide; [reflexivity |].
    case_decide; [reflexivity |]. not_validation.
  - intros projectID v. unfold ProjectsService_Activate.
    case_decide; [reflexivity |]. not_validation.
  - intros projectID v. unfold ProjectsService_Delete.
    case_decide; [reflexivity |]. not_validation.
  - intros keyID v. unfold AuthService_RevokeAPIKey.
    case_decide; [reflexivity |]. not_validation.
  - intros v. unfold Health. not_validation.
  - intros req v. unfold ProjectsService_List. not_validation.
  - intros v. unfold AuthService_Logout. not_validation.
Qed.
End WithTransports.
End ServiceFurther.

Section ListProjects.
Context `{P : Platform} `{TList : !Transport ListProjectsResponse.t}.

(** X17.  [ProjectsService.List] treats a nil request as an empty one;
    it writes the default page size 10 over a [Limit] of zero in the
    caller's struct and leaves [Offset] and [Status] alone; and every
    request it sends is a body-less request whose path carries the limit
    and offset of the updated struct, followed by the status when one is
    set. *)
Theorem ProjectsService_List_defaults (c : Client) (ctx : Context) :
  (let none := ProjectsService_List c ctx None in
   let empty := ProjectsService_List c ctx (Some ListProjectsRequest.zero) in
   none.1.1.1 = empty.1.1.1 /\ none.1.2 = empty.1.2 /\ none.2 = empty.2
   /\ none.1.1.2 = None)
  /\ forall r,
      exists r' sent,
        (ProjectsService_List c ctx (Some r)).1.1.2 = Some r'
        /\ ListProjectsRequest.Limit r'
           = (if decide (ListProjectsRequest.Limit r = 0)
              then 10 else ListProjectsRequest.Limit r)
        /\ ListProjectsRequest.Offset r' = ListProjectsRequest.Offset r
        /\ ListProjectsRequest.Status r' = ListProjectsRequest.Status r
        /\ wire (ProjectsService_List c ctx (Some r)).1.1.1 = wire c ++ sent
        /\ Forall (fun rq =>
                     rq_Body rq = None /\ rq_Path rq = listProjectsPath r')
                  sent.
Proof.
  split.
  - unfold ProjectsService_List. simpl.
    destruct (makeRequest _ _ _ _ _ _) as [[c1 r1] [e1|]]; simpl;
      repeat split.
  - intros r. unfold ProjectsService_List.
    set (r' := if decide (ListProjectsRequest.Limit r = 0)
               then ListProjectsRequest.set_Limit 10 r else r).
    destruct (makeRequest_wire c ctx "GET" (listProjectsPath r') None
                (Some ListProjectsResponse.zero)) as (sent & Hw & Hall).
    exists r', sent.
    assert (Hfields :
              ListProjectsRequest.Limit r'
              = (if decide (ListProjectsRequest.Limit r = 0)
                 then 10 else ListProjectsRequest.Limit r)
              /\ ListProjectsRequest.Offset r' = ListProjectsRequest.Offset r
              /\ ListProjectsRequest.Status r' = ListProjectsRequest.Status r).
    { subst r'. case_decide; simpl; repeat split. }
    destruct Hfields as (Hl & Ho & Hs).
    assert (Hpath : Forall (fun rq =>
                     rq_Body rq = None /\ rq_Path rq = listProjectsPath r')
                  sent).
    { eapply Forall_impl; [exact Hall |]. intros rq [Hp Hb]. auto. }
    destruct (makeRequest _ _ _ _ _ _) as [[c1 r1] [e1|]]; simpl in *;
      repeat split; assumption.
Qed.
End ListProjects.

(** The paths [listProjectsPath] yields: for the empty request, page
    size 10 from the start; with a status filter, the status last. *)
Example list_path_with_status :
  listProjectsPath (ListProjectsRequest.mk 25 50 "active")
  = "/api/v1/zerodb/projects?limit=25&offset=50&status=active".
Proof. vm_compute. reflexivity. Qed.

Example list_path_of_empty_request :
  wire (ProjectsService_List (P := refPlatform) (T := always 200)
          refClient Background None).1.1.1
  = [{| rq_Verb := GET;
        rq_Path := "/api/v1/zerodb/projects?limit=10&offset=0";
        rq_Body := None |}].
Proof. vm_compute. reflexivity. Qed.

Section ServicePaths.
Context `{P : Platform}
        `{TProject : !Transport Project.t}
        `{TUpsert : !Transport UpsertVectorsResponse.t}
        `{TMemoryItem : !Transport MemoryItem.t}
        `{TToken : !Transport TokenResponse.t}
        `{TGenerate : !Transport GenerateResponse.t}
        `{TNone : !Transport unit}.

Ltac sent_by_dispatch :=
  match goal with
  | |- context [makeRequest ?c ?ctx ?m ?p ?b ?r] =>
      let sent := fresh "sent" in
      let Hw := fresh "Hw" in
      let Hall := fresh "Hall" in
      destruct (makeRequest_wire c ctx m p b r) as (sent & Hw & Hall);
      exists sent;
      destruct (makeRequest c ctx m p b r) as [[? ?] [?|]]; simpl in *;
      (split; [exact Hw | exact Hall])
  end.

(** X18.  The methods that take an ID address the resource of that ID:
    for a non-empty ID, every request [ProjectsService.Get] and
    [ProjectsService.Delete] send goes to the same path, the projects
    path followed by the ID; [Activate] appends "/activate" to it; and
    [RevokeAPIKey] goes to the API-keys path followed by the key ID.
    None of them sends a body. *)
Theorem id_methods_address_the_id (c : Client) (ctx : Context) (id : string) :
  id <> "" ->
  (exists sent,
      wire (ProjectsService.Get c ctx id).1.1 = wire c ++ sent
      /\ Forall (fun rq => rq_Path rq = "/api/v1/zerodb/projects/" +:+ id
                           /\ rq_Body rq = None) sent)
  /\ (exists sent,
        wire (ProjectsService_Delete c ctx id).1 = wire c ++ sent
        /\ Forall (fun rq => rq_Path rq = "/api/v1/zerodb/projects/" +:+ id
                             /\ rq_Body rq = None) sent)
  /\ (exists sent,
        wire (ProjectsService_Activate c ctx id).1 = wire c ++ sent
        /\ Forall (fun rq =>
                     rq_Path rq
                     = "/api/v1/zerodb/projects/" +:+ id +:+ "/activate"
                     /\ rq_Body rq = None) sent)
  /\ (exists sent,
        wire (AuthService_RevokeAPIKey c ctx id).1 = wire c ++ sent
        /\ Forall (fun rq => rq_Path rq = "/api/v1/auth/api-keys/" +:+ id
                             /\ rq_Body rq = None) sent).
Proof.
  intros Hid.
  unfold ProjectsService.Get, ProjectsService_Delete,
    ProjectsService_Activate, AuthService_RevokeAPIKey.
  rewrite !decide_False by exact Hid. cbv zeta.
  repeat split; sent_by_dispatch.
Qed.

(** X19.  [VectorsService.Upsert] and [ProjectsService.Create] send the
    caller's request struct as it is: once the pre-flight checks are
    passed, every request they put on the wire carries exactly the
    struct they were given, on the vectors path of the project,
    respectively on the projects path. *)
Theorem upsert_and_create_send_the_request (c : Client) (ctx : Context) :
  (forall projectID r,
      projectID <> "" ->
      UpsertVectorsRequest.Vectors r <> [] ->
      exists sent,
        wire (VectorsService.Upsert c ctx projectID (Some r)).1.1
        = wire c ++ sent
        /\ Forall (fun rq =>
                     rq_Path rq
                     = "/api/v1/zerodb/projects/" +:+ projectID +:+ "/vectors"
                     /\ rq_Body rq = Some (BodyUpsertVectors r)) sent)
  /\ (forall r,
        CreateProjectRequest.Name r <> "" ->
        exists sent,
          wire (ProjectsService.Create c ctx (Some r)).1.1 = wire c ++ sent
          /\ Forall (fun rq =>
                       rq_Path rq = "/api/v1/zerodb/projects"
                       /\ rq_Body rq = Some (BodyCreateProject r)) sent).
Proof.
  split.
  - intros projectID r Hp Hv. unfold VectorsService.Upsert.
    rewrite decide_False by exact Hp.
    rewrite decide_False
      by (destruct (UpsertVectorsRequest.Vectors r);
          [contradiction | discriminate]).
    cbv zeta. sent_by_dispatch.
  - intros r Hn. unfold ProjectsService.Create.
    rewrite decide_False by exact Hn. sent_by_dispatch.
Qed.

(** X20.  [MemoryService.Create] writes the default priority "medium"
    over an empty [Priority] in the caller's struct once the pre-flight
    checks are passed, and sends the struct so updated; the other fields,
    and a priority the caller chose, are never changed. *)
Theorem memory_create_default_priority (c : Client) (ctx : Context)
    (r : CreateMemoryRequest.t) :
  exists r' sent,
    (MemoryService.Create c ctx (Some r)).1.1.2 = Some r'
    /\ (CreateMemoryRequest.Content r' = CreateMemoryRequest.Content r
        /\ CreateMemoryRequest.Title r' = CreateMemoryRequest.Title r
        /\ CreateMemoryRequest.Tags r' = CreateMemoryRequest.Tags r
        /\ CreateMemoryRequest.Metadata r' = CreateMemoryRequest.Metadata r)
    /\ wire (MemoryService.Create c ctx (Some r)).1.1.1 = wire c ++ sent
    /\ Forall (fun rq => rq_Path rq = "/api/v1/memory"
                         /\ rq_Body rq = Some (BodyCreateMemory r')) sent
    /\ (CreateMemoryRequest.Priority r <> "" ->
        CreateMemoryRequest.Priority r' = CreateMemoryRequest.Priority r)
    /\ (CreateMemoryRequest.Content r <> "" ->
        CreateMemoryRequest.Priority r = "" ->
        CreateMemoryRequest.Priority r' = "medium").
Proof.
  unfold MemoryService.Create.
  destruct (decide (CreateMemoryRequest.Content r = "")) as [Hc|Hc].
  { exists r, []. simpl. rewrite app_nil_r.
    repeat split; [constructor | contradiction]. }
  set (r' := if decide (CreateMemoryRequest.Priority r = "")
             then CreateMemoryRequest.set_Priority MemoryPriorityMedium r
             else r).
  destruct (makeRequest_wire c ctx "POST" "/api/v1/memory"
              (Some (BodyCreateMemory r')) (Some MemoryItem.zero))
    as (sent & Hw & Hall).
  exists r', sent.
  assert (Hfields :
            CreateMemoryRequest.Content r' = CreateMemoryRequest.Content r
            /\ CreateMemoryRequest.Title r' = CreateMemoryRequest.Title r
            /\ CreateMemoryRequest.Tags r' = CreateMemoryRequest.Tags r
            /\ CreateMemoryRequest.Metadata r' = CreateMemoryRequest.Metadata r
            /\ (CreateMemoryRequest.Priority r <> "" ->
                CreateMemoryRequest.Priority r' = CreateMemoryRequest.Priority r)
            /\ (CreateMemoryRequest.Priority r = "" ->
                CreateMemoryRequest.Priority r' = "medium")).
  { subst r'. case_decide; simpl; repeat split; intros; try reflexivity;
      contradiction. }
  destruct Hfields as (H1 & H2 & H3 & H4 & H5 & H6).
  destruct (makeRequest _ _ _ _ _ _) as [[c1 r1] [e1|]]; simpl in *;
    repeat split; auto.
Qed.

(** X21.  [EmbeddingsService.Generate] accepts between 1 and 100 texts:
    for such a list it goes to the dispatcher, and every request it
    sends carries the texts and the normalize flag as given and the
    model as given, or "BAAI/bge-small-en-v1.5" for an empty model
    name. *)
Theorem generate_sends_defaults (c : Client) (ctx : Context)
    (texts : list string) (model : string) (normalize : bool) :
  (1 <= length texts <= 100)%nat ->
  let out := EmbeddingsService.Generate c ctx texts model normalize in
  rateLimiter out.1.1 = (Limiter_Wait ctx (rateLimiter c)).1
  /\ exists sent,
      wire out.1.1 = wire c ++ sent
      /\ Forall (fun rq =>
                   rq_Path rq = "/api/v1/embeddings/generate"
                   /\ rq_Body rq
                      = Some (BodyGenerate
                                (GenerateRequest.mk texts
                                   (if decide (model = "")
                                    then "BAAI/bge-small-en-v1.5" else model)
                                   normalize))) sent.
Proof.
  intros [Hlo Hhi]. unfold EmbeddingsService.Generate.
  rewrite decide_False by lia. rewrite decide_False by lia. cbv zeta.
  match goal with
  | |- context [makeRequest ?c ?ctx ?m ?p ?b ?r] =>
      pose proof (makeRequest_keeps_settings c ctx m p b r) as Hf;
      destruct (makeRequest_wire c ctx m p b r) as (sent & Hw & Hall);
      destruct (makeRequest c ctx m p b r) as [[c1 r1] [e1|]]
  end; simpl in *; destruct Hf as (_ & _ & _ & Hl);
    (split; [exact Hl | exists sent; split; [exact Hw | exact Hall]]).
Qed.

(** X22.  A token [AuthService.Login] returns is consistent with itself:
    its [ExpiresAt] is its [IssuedAt] plus its [ExpiresIn] in seconds
    (as long as that many nanoseconds fit in 64 bits), whatever expiry
    the server sent. *)
Theorem login_expiry_is_computed (c : Client) (ctx : Context)
    (req : option LoginRequest.t) (token : TokenResponse.t) :
  (AuthService.Login c ctx req).1.2 = Some token ->
  TokenResponse.ExpiresAt token
  = Time_Add (TokenResponse.IssuedAt token)
             (wrap64 (TokenResponse.ExpiresIn token * Second))
  /\ (- 2 ^ 63 <= TokenResponse.ExpiresIn token * 1000000000 < 2 ^ 63 ->
      TokenResponse.ExpiresAt token
      = TokenResponse.IssuedAt token
        + TokenResponse.ExpiresIn token * 1000000000).
Proof.
  unfold AuthService.Login.
  destruct req as [r|]; [| discriminate].
  case_decide; [discriminate |]. case_decide; [discriminate |].
  destruct (makeRequest _ _ _ _ _ _) as [[c1 [r1|]] [e1|]]; simpl;
    try discriminate.
  intros [= <-]. simpl. split; [reflexivity |].
  intros Hrange. unfold Time_Add, wrap64, Second, Millisecond.
  rewrite Z.mod_small by lia. lia.
Qed.
End ServicePaths.

(** ** More on the token helpers (auth.go) *)

Section TokenFurther.
Context `{P : Platform} `{J : JWT}.

(** X23.  The two expiry helpers agree: they report the same error or
    both none; [IsTokenExpired] answers true without an error exactly
    when [GetTokenExpirationTime] yields an instant before now, and
    false exactly when it yields no instant at all or one that is not
    before now. *)
Theorem token_helpers_agree (tokenString : string) :
  (IsTokenExpired tokenString).2 = (GetTokenExpirationTime tokenString).2
  /\ (IsTokenExpired tokenString = (true, None)
      <-> exists exp,
          GetTokenExpirationTime tokenString = (Some exp, None)
          /\ exp < time_Now)
  /\ (IsTokenExpired tokenString = (false, None)
      <-> GetTokenExpirationTime tokenString = (None, None)
          \/ exists exp,
              GetTokenExpirationTime tokenString = (Some exp, None)
              /\ time_Now <= exp).
Proof.
  unfold IsTokenExpired, GetTokenExpirationTime, Time_Before.
  destruct (ParseToken tokenString) as [claims|err].
  - destruct (TokenClaims.ExpiresAt claims) as [exp|].
    + destruct (Z.ltb_spec exp time_Now) as [Hlt|Hge].
      * split; [reflexivity |]. split.
        -- split; [intros _; exists exp; auto | reflexivity].
        -- split; [discriminate |].
           intros [Hn|(e & [= <-] & He)]; [discriminate | lia].
      * split; [reflexivity |]. split.
        -- split; [discriminate | intros (e & [= <-] & He); lia].
        -- split; [intros _; right; exists exp; auto | reflexivity].
    + split; [reflexivity |]. split.
      * split; [discriminate | intros (e & He & _); discriminate].
      * split; [intros _; left; reflexivity | reflexivity].
  - split; [reflexivity |]. split.
    + split; [discriminate | intros (e & He & _); discriminate].
    + split; [discriminate |].
      intros [Hn|(e & He & _)]; discriminate.
Qed.

(** X24.  [IsTokenExpired] fails closed: it never answers "not expired"
    together with an error, so a token that does not parse counts as
    expired.  The comparison is strict: a token whose expiry is the
    current instant is not expired yet. *)
Theorem token_expiry_fails_closed (tokenString : string) :
  ((IsTokenExpired tokenString).1 = false ->
   (IsTokenExpired tokenString).2 = None
   /\ exists claims, ParseToken tokenString = inl claims)
  /\ (forall claims,
        ParseToken tokenString = inl claims ->
        TokenClaims.ExpiresAt claims = Some time_Now ->
        IsTokenExpired tokenString = (false, None)).
Proof.
  unfold IsTokenExpired. split.
  - destruct (ParseToken tokenString) as [claims|err]; [| discriminate].
    intros _. destruct (TokenClaims.ExpiresAt claims); simpl; eauto.
  - intros claims -> ->. unfold Time_Before. rewrite Z.ltb_irrefl.
    reflexivity.
Qed.
End TokenFurther.

(** ** Key masking (cmd/ainative/config.go) *)

Lemma string_length_append (a b : string) :
  String.length (a +:+ b) = (String.length a + String.length b)%nat.
Proof. induction a as [|x a IH]; simpl; [reflexivity | rewrite IH; reflexivity]. Qed.

Lemma substring_length (s : string) :
  forall n m : nat,
    (n + m <= String.length s)%nat -> String.length (substring n m s) = m.
Proof.
  induction s as [|x s IH]; intros [|n] [|m]; simpl; intros Hlen;
    try reflexivity; try lia.
  - f_equal. apply (IH 0%nat m). simpl. lia.
  - apply IH. lia.
  - apply IH. lia.
Qed.

Lemma substring_append_head (a b : string) :
  substring 0 (String.length a) (a +:+ b) = a.
Proof.
  induction a as [|x a IH]; simpl; [destruct b; reflexivity |].
  rewrite IH. reflexivity.
Qed.

Lemma substring_append_tail (a b : string) (j m : nat) :
  substring (String.length a + j) m (a +:+ b) = substring j m b.
Proof. induction a as [|x a IH]; simpl; [reflexivity | exact IH]. Qed.

Lemma substring_whole (s : string) : substring 0 (String.length s) s = s.
Proof.
  induction s as [|x s IH]; simpl; [reflexivity | rewrite IH; reflexivity].
Qed.

(** X25.  A masked key is 3 bytes long for a key of up to 8 bytes and 11
    bytes long otherwise, and every key of up to 8 bytes is masked to
    the same text "***". *)
Theorem maskString_length (s : string) :
  String.length (maskString s)
  = (if decide (String.length s <= 8)%nat then 3 else 11)%nat
  /\ ((String.length s <= 8)%nat -> maskString s = "***").
Proof.
  unfold maskString.
  destruct (Nat.leb_spec (String.length s) 8) as [Hle|Hgt].
  - rewrite decide_True by exact Hle. split; reflexivity.
  - rewrite decide_False by lia. split; [| lia].
    rewrite !string_length_append, !substring_length by lia.
    reflexivity.
Qed.

(** X26.  The mask of a key longer than 8 bytes shows its first four
    bytes, three dots and its last four bytes, and nothing else: two
    such keys with the same first four and the same last four bytes have
    the same mask. *)
Theorem maskString_shows_the_ends (s : string) :
  (8 < String.length s)%nat ->
  substring 0 4 (maskString s) = substring 0 4 s
  /\ substring 4 3 (maskString s) = "..."
  /\ substring 7 4 (maskString s) = substring (String.length s - 4) 4 s
  /\ forall t,
      (8 < String.length t)%nat ->
      substring 0 4 t = substring 0 4 s ->
      substring (String.length t - 4) 4 t
      = substring (String.length s - 4) 4 s ->
      maskString t = maskString s.
Proof.
  intros Hlen. unfold maskString.
  rewrite (proj2 (Nat.leb_gt _ _)) by exact Hlen.
  set (p := substring 0 4 s). set (q := substring (String.length s - 4) 4 s).
  assert (Hp : String.length p = 4%nat) by (apply substring_length; lia).
  assert (Hq : String.length q = 4%nat) by (apply substring_length; lia).
  split; [| split; [| split]].
  - rewrite <- Hp at 1. apply substring_append_head.
  - replace 4%nat with (String.length p + 0)%nat at 1 by lia.
    rewrite substring_append_tail. simpl. destruct q; reflexivity.
  - replace 7%nat with (String.length p + 3)%nat by lia.
    rewrite substring_append_tail. simpl.
    rewrite <- Hq at 1. apply substring_whole.
  - intros t Ht Hhead Htail.
    rewrite (proj2 (Nat.leb_gt _ _)) by exact Ht.
    rewrite Hhead, Htail. reflexivity.
Qed.

(** ** The further properties on the reference platform *)

Lemma SetProjectID_effect_witness :
  Resty.Headers (httpClient (SetProjectID refClient "proj_123"))
    !! "Authorization"
  = Some "Bearer test-key".
Proof.
  destruct (SetProjectID_effect (P := refPlatform) refClient "proj_123")
    as (_ & _ & Hother & _).
  rewrite Hother by discriminate.
  vm_compute. reflexivity.
Defined.

Lemma SetOrganizationID_effect_witness :
  Resty.Headers (httpClient (SetOrganizationID refClient "org_9"))
    !! "User-Agent"
  = Some "AINative-Go-SDK/1.0.0".
Proof.
  destruct (SetOrganizationID_effect (P := refPlatform) refClient "org_9")
    as (_ & _ & Hother & _).
  rewrite Hother by discriminate.
  vm_compute. reflexivity.
Defined.

Lemma validation_error_means_untouched_witness :
  (VectorsService.Upsert (P := refPlatform) (T := always 200)
     refClient Background "" None).1.1 = refClient.
Proof.
  destruct (validation_error_means_untouched (P := refPlatform)
              (THealth := always 200) (TProject := always 200)
              (TList := always 200) (TVectorSearch := always 200)
              (TUpsert := always 200) (TMemoryItem := always 200)
              (TSearchMemory := always 200) (TToken := always 200)
              (TGenerate := always 200) (TNone := always 200)
              refClient Background)
    as (_ & _ & _ & Hupsert & _).
  apply (Hupsert "" None
           (ValidationError.mk "project_id" "project ID is required"
                               (VString ""))).
  reflexivity.
Defined.

Lemma id_methods_address_the_id_witness :
  exists sent,
    wire (ProjectsService_Delete (P := refPlatform) (T := always 204)
            refClient Background "proj_123").1 = [] ++ sent
    /\ Forall (fun rq => rq_Path rq = "/api/v1/zerodb/projects/" +:+ "proj_123"
                         /\ rq_Body rq = None) sent.
Proof.
  apply (id_methods_address_the_id (P := refPlatform)
           (TProject := always 200) (TNone := always 204)
           refClient Background "proj_123").
  discriminate.
Defined.

Lemma upsert_and_create_send_the_request_witness :
  exists sent,
    wire (ProjectsService.Create (P := refPlatform) (T := always 201)
            refClient Background
            (Some (CreateProjectRequest.mk "demo" "" ∅))).1.1 = [] ++ sent
    /\ Forall (fun rq =>
                 rq_Path rq = "/api/v1/zerodb/projects"
                 /\ rq_Body rq
                    = Some (BodyCreateProject
                              (CreateProjectRequest.mk "demo" "" ∅))) sent.
Proof.
  apply (proj2 (upsert_and_create_send_the_request (P := refPlatform)
                  (TProject := always 201) (TUpsert := always 200)
                  refClient Background)).
  discriminate.
Defined.

Lemma memory_create_default_priority_witness :
  exists r',
    (MemoryService.Create (P := refPlatform) (T := always 201)
       refClient Background
       (Some (CreateMemoryRequest.mk "remember this" "" [] "" ∅))).1.1.2
    = Some r'
    /\ CreateMemoryRequest.Priority r' = "medium".
Proof.
  destruct (memory_create_default_priority (P := refPlatform)
              (TMemoryItem := always 201) refClient Background
              (CreateMemoryRequest.mk "remember this" "" [] "" ∅))
    as (r' & sent & Hr & _ & _ & _ & _ & Hdefault).
  exists r'. split; [exact Hr |].
  apply Hdefault; [discriminate | reflexivity].
Defined.

Lemma generate_sends_defaults_witness :
  exists sent,
    wire (EmbeddingsService.Generate (P := refPlatform) (T := always 200)
            refClient Background ["hello"; "world"] "" true).1.1 = [] ++ sent
    /\ Forall (fun rq =>
                 rq_Path rq = "/api/v1/embeddings/generate"
                 /\ rq_Body rq
                    = Some (BodyGenerate
                              (GenerateRequest.mk ["hello"; "world"]
                                 "BAAI/bge-small-en-v1.5" true))) sent.
Proof.
  apply (generate_sends_defaults (P := refPlatform) (TGenerate := always 200)
           refClient Background ["hello"; "world"] "" true).
  simpl. lia.
Defined.

(** A login answer decoded with [IssuedAt] 1000 and [ExpiresIn] 3600. *)
Lemma login_expiry_is_computed_witness :
  let stored := TokenResponse.mk "tok" "bearer" 3600 "" "" 1000 7 in
  let reply : Exchange TokenResponse.t :=
    {| ex_resp := {| StatusCode := 200; Header := ∅ |}; ex_err := None;
       ex_stored := Some stored; ex_apiError := APIError.zero |} in
  let token := TokenResponse.set_ExpiresAt (1000 + 3600 * 1000000000) stored in
  TokenResponse.ExpiresAt token
  = TokenResponse.IssuedAt token + TokenResponse.ExpiresIn token * 1000000000.
Proof.
  intros stored reply token.
  apply (login_expiry_is_computed (P := refPlatform)
           (TToken := scripted [] reply) refClient Background
           (Some (LoginRequest.mk "ada" "secret")) token).
  - vm_compute. reflexivity.
  - subst token stored. cbn. lia.
Defined.

Lemma token_helpers_agree_witness :
  exists exp,
    GetTokenExpirationTime (J := refJWT) "h.exp500.s" = (Some exp, None)
    /\ exp < @time_Now refPlatform.
Proof.
  apply (proj1 (proj1 (proj2 (token_helpers_agree (P := refPlatform)
                                (J := refJWT) "h.exp500.s")))).
  vm_compute. reflexivity.
Defined.

Lemma token_expiry_fails_closed_witness :
  (IsTokenExpired (P := refPlatform) (J := refJWT) "h.noexp.s").2 = None
  /\ exists claims, ParseToken (J := refJWT) "h.noexp.s" = inl claims.
Proof.
  apply (proj1 (token_expiry_fails_closed (P := refPlatform) (J := refJWT)
                  "h.noexp.s")).
  reflexivity.
Defined.

Lemma maskString_length_witness : maskString "sk_12345" = "***".
Proof.
  apply (proj2 (maskString_length "sk_12345")). simpl. lia.
Defined.

Lemma maskString_shows_the_ends_witness :
  substring 0 4 (maskString "ak_live_0123456789") = "ak_l"
  /\ substring 7 4 (maskString "ak_live_0123456789") = "6789"
  /\ maskString "ak_live_0123456789" = "ak_l...6789".
Proof.
  destruct (maskString_shows_the_ends "ak_live_0123456789")
    as (Hhead & _ & Htail & _).
  - simpl. lia.
  - split; [exact Hhead |]. split; [exact Htail | reflexivity].
Defined.


(** ** Calls the defaults do not reach *)

(** C9, the claim as stated fails.  [MemoryService.Search] with a [Limit]
    of zero and an empty query, and [VectorsService.Search] with a
    [TopK] of zero and an empty project ID, return a validation error
    before the default is written: the caller's struct keeps its zero. *)
Lemma rejected_search_keeps_its_zero :
  (exists v,
      MemoryService.Search (P := refPlatform) (T := always 200)
        refClient Background
        (Some (SearchMemoryRequest.mk "" 0 [] "" false))
      = (refClient, Some (SearchMemoryRequest.mk "" 0 [] "" false), None,
         Some (EValidationError v)))
  /\ SearchMemoryRequest.Limit (SearchMemoryRequest.mk "" 0 [] "" false) <> 10
  /\ (exists v,
        VectorsService.Search (P := refPlatform) (T := always 200)
          refClient Background ""
          (Some (VectorSearchRequest.mk [0; 1] 0 "" ∅ false false))
        = (refClient,
           Some (VectorSearchRequest.mk [0; 1] 0 "" ∅ false false), None,
           Some (EValidationError v)))
  /\ VectorSearchRequest.TopK
       (VectorSearchRequest.mk [0; 1] 0 "" ∅ false false) <> 5.
Proof.
  split; [eexists; reflexivity |]. split; [discriminate |].
  split; [eexists; reflexivity | discriminate].
Qed.

(** C10, the claim as stated fails.  For [Config{APIKey: ""}], whose
    [BaseURL] is empty and whose [Timeout] and [RateLimit] are zero,
    [NewClient] returns before the defaults: the three fields stay
    empty and zero. *)
Lemma missing_key_leaves_defaults_unset :
  exists cfg',
    (NewClient (P := refPlatform) (Some (minimalConfig ""))).1.1 = Some cfg'
    /\ Config.BaseURL (minimalConfig "") = ""
    /\ Config.Timeout (minimalConfig "") = 0
    /\ Config.RateLimit (minimalConfig "") = 0
    /\ Config.BaseURL cfg' <> DefaultBaseURL
    /\ Config.Timeout cfg' <> DefaultTimeout
    /\ Config.RateLimit cfg' <> DefaultRateLimit.
Proof.
  eexists. split; [vm_compute; reflexivity |].
  repeat split; discriminate.
Qed.
